(** * sandboxie-py: the launcher command line, the pid parser and the
      config transaction of [sandboxie.py]

    A shallow embedding of the class [Sandboxie] of [src/sandboxie.py].

    - Python [str]/[bytes] values are [string]s (lists of 8-bit characters).
    - [None]-able arguments are [option]s, flags are [bool]s.
    - Exceptions are values of [exn]; code that can raise returns
      [exn + A] ([result A]); code that also touches the file system or
      runs the launcher is a state-and-error computation [M A] over a
      [World].
    - A [configparser.ConfigParser] is a record of its DEFAULT options and
      its named sections ([gmap]s); setting a section follows the library:
      option names go through [optionxform] and values through the
      interpolation syntax check.
    - The world holds the files, the paths that cannot be opened for
      writing, and the launcher runs made so far.  The launcher is an
      external process: what it answers may depend on the whole world at
      the time of the run (the config file it reloads, the runs before).
    - [os.path.join], [str.lower], the launcher and the parser's reader and
      writer are library or external code: they are parameters of the
      development ([Platform]). *)

From Stdlib Require Import ZArith Ascii String List Bool Lia.
From Stdlib Require Import Decimal DecimalString DecimalNat.
From stdpp Require Import base option list strings gmap fin_maps.

Open Scope Z_scope.
Open Scope string_scope.
Open Scope list_scope.

(** ** Exceptions and results *)

Inductive exn : Type :=
| TypeError (keyword : string)   (* a keyword argument given twice *)
| ValueError (literal : string)  (* [int] applied to a malformed literal; a
                                    value of invalid interpolation syntax *)
| IOError (path : string)        (* [io.open] of a file that is not there,
                                    or that cannot be opened for writing *)
| Raised (what : string).        (* any other exception: the block's, the
                                    launcher's, the config reader's *)

Definition result (A : Type) : Type := (exn + A)%type.

Definition ok {A} (a : A) : result A := inr a.
Definition raise {A} (e : exn) : result A := inl e.

Definition rbind {A B} (r : result A) (k : A -> result B) : result B :=
  match r with
  | inl e => inl e
  | inr a => k a
  end.

Declare Scope result_scope.
Delimit Scope result_scope with result.
Notation "x <~ r ;; k" := (rbind r (fun x => k))
  (at level 100, r at next level, k at level 200,
   right associativity) : result_scope.

(** ** The Python built-ins the module relies on *)

Module Py.

(** [x or y] on strings: [None] and the empty string are falsy. *)
Definition or_ (x : option string) (y : string) : string :=
  match x with
  | None => y
  | Some "" => y
  | Some s => s
  end.

(** ASCII whitespace, the separators of [split()] and what [int] strips:
    space, tab, line feed, vertical tab, form feed, carriage return. *)
Definition isspace (c : ascii) : bool :=
  let n := N_of_ascii c in
  ((n =? 32) || ((9 <=? n) && (n <=? 13)))%N.

(** [s.split()]: the maximal runs of non-whitespace characters of [s],
    in order.  [cur] is the run being read. *)
Fixpoint split_from (cur : string) (s : string) : list string :=
  match s with
  | EmptyString => match cur with EmptyString => [] | _ => [cur] end
  | String c s' =>
      if isspace c then
        match cur with
        | EmptyString => split_from EmptyString s'
        | _ => cur :: split_from EmptyString s'
        end
      else split_from (cur +:+ String c EmptyString) s'
  end.

Definition split (s : string) : list string := split_from EmptyString s.

Fixpoint lstrip (s : string) : string :=
  match s with
  | String c s' => if isspace c then lstrip s' else s
  | EmptyString => EmptyString
  end.

Fixpoint rstrip (s : string) : string :=
  match s with
  | EmptyString => EmptyString
  | String c s' =>
      match rstrip s' with
      | EmptyString => if isspace c then EmptyString else String c EmptyString
      | r => String c r
      end
  end.

Definition strip (s : string) : string := rstrip (lstrip s).

Definition digit (c : ascii) : option Z :=
  let n := Z.of_N (N_of_ascii c) in
  if ((48 <=? n) && (n <=? 57))%Z then Some (n - 48) else None.

Definition isdigit (c : ascii) : bool :=
  match digit c with Some _ => true | None => false end.

(** The digits of a decimal literal after its first digit: digits, with
    single underscores allowed between two digits. *)
Fixpoint int_digits (acc : Z) (s : string) : option Z :=
  match s with
  | EmptyString => Some acc
  | String c s' =>
      match digit c with
      | Some d => int_digits (10 * acc + d) s'
      | None =>
          if Ascii.eqb c "_" then
            match s' with
            | String c' _ => if isdigit c' then int_digits acc s' else None
            | EmptyString => None
            end
          else None
      end
  end.

(** An unsigned decimal literal: it starts with a digit. *)
Definition int_unsigned (s : string) : option Z :=
  match s with
  | String c s' =>
      match digit c with
      | Some d => int_digits d s'
      | None => None
      end
  | EmptyString => None
  end.

(** [int(s)] in base 10, as CPython from 3.6 on reads a literal when no
    limit on the number of digits is in force: surrounding whitespace is
    stripped, one sign is allowed, single underscores may stand between
    digits, anything else raises [ValueError].  (Interpreters before 3.6
    refuse the underscores; 3.11 and the later releases of 3.7 to 3.10
    refuse, by default, a literal of more than 4300 digits, a limit that
    cannot be set below 640.  On literals without underscores and of at
    most 640 characters every interpreter agrees with this definition.) *)
Definition int (s : string) : result Z :=
  let literal := strip s in
  let value :=
    match literal with
    | String c r =>
        if Ascii.eqb c "-" then option_map Z.opp (int_unsigned r)
        else if Ascii.eqb c "+" then int_unsigned r
        else int_unsigned literal
    | EmptyString => None
    end in
  match value with
  | Some n => ok n
  | None => raise (ValueError s)
  end.

(** What [s.lower()] gives on ASCII text: the letters A to Z are
    lowercased.  [str.lower] itself is a parameter of the development;
    this function is the one of the concrete platform below. *)
Definition ascii_lower_char (c : ascii) : ascii :=
  let n := N_of_ascii c in
  if ((65 <=? n) && (n <=? 90))%N then ascii_of_N (n + 32) else c.

Fixpoint ascii_lower (s : string) : string :=
  match s with
  | EmptyString => EmptyString
  | String c s' => String (ascii_lower_char c) (ascii_lower s')
  end.

(** A generator expression [(f(x) for x in xs)]: the values, or the
    exception, that successive [next] calls produce.  [xs] is evaluated
    when the expression is, [f] only when the generator is consumed. *)
Definition generator (A : Type) : Type := list (result A).

Definition genexpr {A B} (f : A -> result B) (xs : list A) : generator B :=
  map f xs.

(** [tuple(g)]: consumes [g]; the first exception ends the consumption
    and is propagated. *)
Fixpoint tuple {A} (g : generator A) : result (list A) :=
  match g with
  | [] => ok []
  | inl e :: _ => raise e
  | inr a :: g' =>
      match tuple g' with
      | inl e => raise e
      | inr l => ok (a :: l)
      end
  end.

End Py.

(** ** [configparser.ConfigParser(strict=False)]

    The parser object holds the options of the DEFAULT section and the
    named sections.  Option names are stored as [optionxform] gives them
    ([str.lower], here the parameter [lower]); a value is checked by the
    interpolation in force ([BasicInterpolation]) when it is set.  A Python
    [dict] of options is the list of its items, in iteration order. *)

Module configparser.

Record ConfigParser : Type := {
  _defaults : gmap string string;
  _sections : gmap string (gmap string string)
}.

Definition default_section : string := "DEFAULT".

(** [value.replace('%%', '')] *)
Fixpoint remove_escaped_percent (s : string) : string :=
  match s with
  | EmptyString => EmptyString
  | String c s' =>
      match s' with
      | String c' r =>
          if Ascii.eqb c "%" && Ascii.eqb c' "%" then remove_escaped_percent r
          else String c (remove_escaped_percent s')
      | EmptyString => s
      end
  end.

(** Whether removing every [%(name)s] reference leaves no percent sign:
    each percent sign must open a reference with a non-empty name. *)
Inductive syntax_state : Type :=
| in_text
| after_percent
| in_name (nonempty : bool)
| after_name.

Fixpoint interpolation_syntax (st : syntax_state) (s : string) : bool :=
  match s with
  | EmptyString => match st with in_text => true | _ => false end
  | String c s' =>
      match st with
      | in_text =>
          if Ascii.eqb c "%" then interpolation_syntax after_percent s'
          else interpolation_syntax in_text s'
      | after_percent =>
          if Ascii.eqb c "(" then interpolation_syntax (in_name false) s'
          else false
      | in_name nonempty =>
          if Ascii.eqb c ")" then
            nonempty && interpolation_syntax after_name s'
          else interpolation_syntax (in_name true) s'
      | after_name =>
          if Ascii.eqb c "s" then interpolation_syntax in_text s' else false
      end
  end.

Definition valid_interpolation (value : string) : bool :=
  interpolation_syntax in_text (remove_escaped_percent value).

(** [BasicInterpolation.before_set] *)
Definition before_set (value : string) : result string :=
  if valid_interpolation value then ok value else raise (ValueError value).

Section optionxform.

(** [str.lower] *)
Context (lower : string -> string).

Definition optionxform (option : string) : string := lower option.

(** [ConfigParser.set(section, option, value)]: a non-empty value is
    checked; the empty section name and the default section name both
    address the defaults. *)
Definition set_ (section option value : string) (config : ConfigParser)
    : result ConfigParser :=
  rbind (match value with
         | EmptyString => ok value
         | _ => before_set value
         end)
    (fun value =>
       if bool_decide (section = EmptyString) ||
          bool_decide (section = default_section)
       then ok {| _defaults := <[optionxform option := value]> (_defaults config);
                  _sections := _sections config |}
       else
         match _sections config !! section with
         | None => raise (Raised "NoSectionError")
         | Some options =>
             ok {| _defaults := _defaults config;
                   _sections :=
                     <[section := <[optionxform option := value]> options]>
                       (_sections config) |}
         end).

Definition add_section (section : string) (config : ConfigParser)
    : result ConfigParser :=
  if bool_decide (section = default_section) then raise (ValueError section)
  else
    match _sections config !! section with
    | Some _ => raise (Raised "DuplicateSectionError")
    | None =>
        ok {| _defaults := _defaults config;
              _sections := <[section := ∅]> (_sections config) |}
    end.

(** [read_dict({section: keys})] of a non-strict parser: the exceptions
    of [add_section] are passed over, then the options are set one by
    one. *)
Definition read_dict (section : string) (keys : list (string * string))
    (config : ConfigParser) : result ConfigParser :=
  let config :=
    match add_section section config with
    | inr config' => config'
    | inl _ => config
    end in
  fold_left
    (fun r '(key, value) =>
       rbind r (fun config => set_ section (optionxform key) value config))
    keys (ok config).

(** [config[key] = value], for a [value] that is not the section's own
    proxy: the section is emptied, then read from [value]. *)
Definition setitem (key : string) (value : list (string * string))
    (config : ConfigParser) : result ConfigParser :=
  let config :=
    if bool_decide (key = default_section) then
      {| _defaults := ∅; _sections := _sections config |}
    else
      match _sections config !! key with
      | Some _ =>
          {| _defaults := _defaults config;
             _sections := <[key := ∅]> (_sections config) |}
      | None => config
      end in
  read_dict key value config.

End optionxform.

(** [config.remove_section(section)] answers whether the section
    existed. *)
Definition remove_section (section : string) (config : ConfigParser)
    : bool * ConfigParser :=
  match _sections config !! section with
  | Some _ =>
      (true, {| _defaults := _defaults config;
                _sections := delete section (_sections config) |})
  | None => (false, config)
  end.

End configparser.

Abbreviation ConfigParser := configparser.ConfigParser.
Abbreviation _defaults := configparser._defaults.
Abbreviation _sections := configparser._sections.

(** ** Keyword arguments of [start]

    [start(self, command=None, box=None, silent=True, wait=False,
    nosbiectrl=True, elevate=False, disable_forced=False, reload=False,
    terminate=False, terminate_all=False, listpids=False)] *)

Record StartArgs : Type := {
  command : option string;
  box : option string;
  silent : bool;
  wait : bool;
  nosbiectrl : bool;
  elevate : bool;
  disable_forced : bool;
  reload : bool;
  terminate : bool;
  terminate_all : bool;
  listpids : bool
}.

(** The arguments of one call site, by keyword; [None] is "not given".
    The wrappers pass their fixed arguments together with the caller's
    extra keywords ([kwargs]). *)
Record Kwargs : Type := {
  kw_command : option (option string);
  kw_box : option (option string);
  kw_silent : option bool;
  kw_wait : option bool;
  kw_nosbiectrl : option bool;
  kw_elevate : option bool;
  kw_disable_forced : option bool;
  kw_reload : option bool;
  kw_terminate : option bool;
  kw_terminate_all : option bool;
  kw_listpids : option bool
}.

Definition no_kwargs : Kwargs :=
  {| kw_command := None; kw_box := None; kw_silent := None; kw_wait := None;
     kw_nosbiectrl := None; kw_elevate := None; kw_disable_forced := None;
     kw_reload := None; kw_terminate := None; kw_terminate_all := None;
     kw_listpids := None |}.

(** One parameter of the callee: given twice is a [TypeError], not given
    is the default. *)
Definition bind_arg {A} (keyword : string) (default : A)
    (given extra : option A) : result A :=
  match given, extra with
  | Some _, Some _ => raise (TypeError keyword)
  | Some v, None => ok v
  | None, Some v => ok v
  | None, None => ok default
  end.

Open Scope result_scope.

(** A call of [start] with the keywords [given] and the forwarded
    [kwargs]: the parameters [start] runs with. *)
Definition bind_start_args (given kwargs : Kwargs) : result StartArgs :=
  command <~ bind_arg "command" None (kw_command given) (kw_command kwargs) ;;
  box <~ bind_arg "box" None (kw_box given) (kw_box kwargs) ;;
  silent <~ bind_arg "silent" true (kw_silent given) (kw_silent kwargs) ;;
  wait <~ bind_arg "wait" false (kw_wait given) (kw_wait kwargs) ;;
  nosbiectrl <~ bind_arg "nosbiectrl" true
    (kw_nosbiectrl given) (kw_nosbiectrl kwargs) ;;
  elevate <~ bind_arg "elevate" false (kw_elevate given) (kw_elevate kwargs) ;;
  disable_forced <~ bind_arg "disable_forced" false
    (kw_disable_forced given) (kw_disable_forced kwargs) ;;
  reload <~ bind_arg "reload" false (kw_reload given) (kw_reload kwargs) ;;
  terminate <~ bind_arg "terminate" false
    (kw_terminate given) (kw_terminate kwargs) ;;
  terminate_all <~ bind_arg "terminate_all" false
    (kw_terminate_all given) (kw_terminate_all kwargs) ;;
  listpids <~ bind_arg "listpids" false
    (kw_listpids given) (kw_listpids kwargs) ;;
  ok {| command := command; box := box; silent := silent; wait := wait;
        nosbiectrl := nosbiectrl; elevate := elevate;
        disable_forced := disable_forced; reload := reload;
        terminate := terminate; terminate_all := terminate_all;
        listpids := listpids |}.

Close Scope result_scope.

(** ** The world outside the process

    The files (by path, as the text read and written with the module's
    fixed encoding, utf-16-le), the paths that [io.open] refuses to open
    for writing (a read-only or locked file, a missing directory) and the
    launcher invocations made so far. *)

Record World : Type := {
  files : gmap string string;
  unwritable : gset string;
  invocations : list (list string)
}.

(** A method body: it may raise, and its effects on the world stay when it
    does. *)
Definition M (A : Type) : Type := World -> result A * World.

Definition ret {A} (a : A) : M A := fun w => (ok a, w).

Definition lift {A} (r : result A) : M A := fun w => (r, w).

Definition bind {A B} (c : M A) (k : A -> M B) : M B :=
  fun w =>
    match c w with
    | (inl e, w') => (inl e, w')
    | (inr a, w') => k a w'
    end.

Declare Scope M_scope.
Delimit Scope M_scope with M.
Bind Scope M_scope with M.
Notation "x <- c ;; k" := (bind c (fun x => k))
  (at level 100, c at next level, k at level 200,
   right associativity) : M_scope.

(** ** What the module takes from libraries and from the installation

    [os.path.join], [str.lower], [subprocess.check_output] (the launcher:
    its captured output, or the exception of a failed run, in the world in
    which it is run), and the reader and writer of
    [configparser.ConfigParser(strict=False)]. *)

Record Platform : Type := {
  os_path_join : string -> string -> string;
  str_lower : string -> string;
  check_output : World -> list string -> result string;
  read_file : string -> result ConfigParser;
  write : ConfigParser -> string
}.

(** *** A concrete platform, to run the operations on concrete files

    A plain reader and writer of the section/option syntax: the letters A
    to Z of option names are lowercased, the header [DEFAULT] addresses the
    defaults, a repeated header continues its section and a repeated option
    keeps the later value.  The theorems hold for any reader and writer. *)

Definition LF : string := String "010" EmptyString.
Definition CRLF : string := String "013" LF.

Definition ini_write_section (name : string) (options : gmap string string)
    : string :=
  "[" +:+ name +:+ "]" +:+ LF +:+
  String.concat ""
    (map (fun '(key, value) => key +:+ " = " +:+ value +:+ LF)
         (map_to_list options)) +:+
  LF.

Definition ini_write (config : ConfigParser) : string :=
  (if bool_decide (_defaults config = ∅) then EmptyString
   else ini_write_section configparser.default_section (_defaults config))
  +:+
  String.concat ""
    (map (fun '(name, options) => ini_write_section name options)
         (map_to_list (_sections config))).

Fixpoint lines_from (cur : string) (s : string) : list string :=
  match s with
  | EmptyString => match cur with EmptyString => [] | _ => [cur] end
  | String c s' =>
      if Ascii.eqb c "010" then cur :: lines_from EmptyString s'
      else lines_from (cur +:+ String c EmptyString) s'
  end.

Fixpoint unsnoc (s : string) : option (string * ascii) :=
  match s with
  | EmptyString => None
  | String c s' =>
      match unsnoc s' with
      | None => Some (EmptyString, c)
      | Some (r, l) => Some (String c r, l)
      end
  end.

Definition section_header (line : string) : option string :=
  match line with
  | String "[" r =>
      match unsnoc r with
      | Some (name, "]"%char) => Some name
      | _ => None
      end
  | _ => None
  end.

Fixpoint partition_option (key : string) (s : string)
    : option (string * string) :=
  match s with
  | EmptyString => None
  | String c s' =>
      if Ascii.eqb c "=" || Ascii.eqb c ":" then Some (key, s')
      else partition_option (key +:+ String c EmptyString) s'
  end.

Definition ini_line (st : ConfigParser * option string) (line : string)
    : result (ConfigParser * option string) :=
  let '(config, cursect) := st in
  match Py.strip line with
  | EmptyString => ok st
  | String c _ as l =>
      if Ascii.eqb c "#" || Ascii.eqb c ";" then ok st
      else
        match section_header l with
        | Some name =>
            if bool_decide (name = configparser.default_section) then
              ok (config, Some name)
            else
              match _sections config !! name with
              | Some _ => ok (config, Some name)
              | None =>
                  ok ({| _defaults := _defaults config;
                         _sections := <[name := ∅]> (_sections config) |},
                      Some name)
              end
        | None =>
            match cursect with
            | None => raise (Raised "MissingSectionHeaderError")
            | Some name =>
                match partition_option EmptyString l with
                | None => raise (Raised "ParsingError")
                | Some (key, value) =>
                    let key := Py.ascii_lower (Py.strip key) in
                    let value := Py.strip value in
                    if bool_decide (name = configparser.default_section) then
                      ok ({| _defaults := <[key := value]> (_defaults config);
                             _sections := _sections config |}, cursect)
                    else
                      ok ({| _defaults := _defaults config;
                             _sections :=
                               <[name := <[key := value]>
                                           (default ∅ (_sections config !! name))]>
                                 (_sections config) |}, cursect)
                end
            end
        end
  end.

Definition ini_read_file (text : string) : result ConfigParser :=
  rbind
    (fold_left (fun st line => rbind st (fun s => ini_line s line))
               (lines_from EmptyString text)
               (ok ({| _defaults := ∅; _sections := ∅ |}, None)))
    (fun st => ok (fst st)).

(** The launcher of the concrete platform prints four process ids when
    asked for them, and nothing otherwise. *)
Definition example_pidlist : string :=
  "13" +:+ CRLF +:+ "2705" +:+ CRLF +:+ "1336" +:+ CRLF +:+ "2914".

Definition example_platform : Platform :=
  {| os_path_join := fun dir name => (dir +:+ "\") +:+ name;
     str_lower := Py.ascii_lower;
     check_output := fun _ argv =>
       if bool_decide ("/listpids" ∈ argv) then ok example_pidlist else ok "";
     read_file := ini_read_file;
     write := ini_write |}.

(** ** The class [Sandboxie] *)

Record Sandboxie : Type := {
  install_dir : string;
  defaultbox : string;
  config_path : string
}.

Inductive mode : Type := mode_r | mode_w.

(** The launcher's control flags, which only apply without a command. *)
Definition control_tokens : list string :=
  ["/reload"; "/terminate"; "/terminate_all"; "/listpids"].

(** [if flag: options.append(token)] *)
Definition append_if (flag : bool) (token : string) (options : list string)
    : list string :=
  if flag then options ++ [token] else options.

Section Sandboxie.

Context (P : Platform).

Open Scope M_scope.

(** [io.open(self.config_path, mode, encoding='utf-16-le')]: reading
    needs the file to be there; writing is refused on a path that cannot
    be opened for writing, and creates or truncates the file otherwise.
    The result is the text of the opened file. *)
Definition _open_config_file (self : Sandboxie) (m : mode) : M string :=
  fun w =>
    match m with
    | mode_r =>
        match files w !! config_path self with
        | Some text => (ok text, w)
        | None => (raise (IOError (config_path self)), w)
        end
    | mode_w =>
        if bool_decide (config_path self ∈ unwritable w) then
          (raise (IOError (config_path self)), w)
        else
          (ok EmptyString,
           {| files := <[config_path self := EmptyString]> (files w);
              unwritable := unwritable w;
              invocations := invocations w |})
    end.

(** [subprocess.check_output(argv)]: the launcher runs in the world as it
    is at the call, and the run is recorded. *)
Definition _shell_output (argv : list string) : M string :=
  fun w =>
    (check_output P w argv,
     {| files := files w; unwritable := unwritable w;
        invocations := invocations w ++ [argv] |}).

(** [config.write(config_file)] on the file opened for writing.  (An
    error of the device while the text is written is not modelled.) *)
Definition config_write (self : Sandboxie) (config : ConfigParser) : M unit :=
  fun w =>
    (ok tt,
     {| files := <[config_path self := write P config]> (files w);
        unwritable := unwritable w;
        invocations := invocations w |}).

Definition _write_config (self : Sandboxie) (config : ConfigParser)
    : M unit :=
  _ <- _open_config_file self mode_w ;;
  config_write self config.

Definition get_config (self : Sandboxie) : M ConfigParser :=
  text <- _open_config_file self mode_r ;;
  lift (read_file P text).

(** The context manager, applied to the block of its [with] statement.
    The block receives the parsed config and leaves it as [block config]
    returns it; an exception of the block comes out of the [yield], which
    nothing in the generator catches. *)
Definition _modify_config (self : Sandboxie)
    (block : ConfigParser -> M ConfigParser) : M unit :=
  config <- get_config self ;;
  config <- block config ;;
  _write_config self config.

(** Lines 168-180: the sandbox and the flags that apply to any call. *)
Definition start_flags (self : Sandboxie) (a : StartArgs) : list string :=
  let box := match box a with None => defaultbox self | Some b => b end in
  let options := ["/box:" +:+ box] in
  let options := append_if (silent a) "/silent" options in
  let options := append_if (wait a) "/wait" options in
  let options := append_if (nosbiectrl a) "/nosbiectrl" options in
  let options := append_if (elevate a) "/elevate" options in
  let options := append_if (disable_forced a) "/dfp" options in
  options.

(** Lines 182-194: the control flags, and the command after them. *)
Definition start_control (a : StartArgs) (options : list string)
    : list string * option string :=
  match command a with
  | None =>
      let options := append_if (reload a) "/reload" options in
      let options := append_if (terminate a) "/terminate" options in
      let options := append_if (terminate_all a) "/terminate_all" options in
      if listpids a then (options ++ ["/listpids"], Some "| more")
      else (options, None)
  | Some c => (options, Some c)
  end.

(** Lines 196-198: the argument list handed to [_shell_output]. *)
Definition start_argv (self : Sandboxie) (a : StartArgs) : list string :=
  let '(options, command) := start_control a (start_flags self a) in
  let start_exe := os_path_join P (install_dir self) "Start.exe" in
  let command := Py.or_ command "" in
  [start_exe] ++ options ++ [command].

Definition start (self : Sandboxie) (a : StartArgs) : M string :=
  _shell_output (start_argv self a).

(** A call [self.start(...)] with the keywords [given] and the forwarded
    [kwargs]. *)
Definition call_start (self : Sandboxie) (given kwargs : Kwargs)
    : M string :=
  a <- lift (bind_start_args given kwargs) ;;
  start self a.

Definition reload_config (self : Sandboxie) (kwargs : Kwargs) : M unit :=
  _ <- call_start self
         {| kw_command := None; kw_box := None; kw_silent := None;
            kw_wait := None; kw_nosbiectrl := None; kw_elevate := None;
            kw_disable_forced := None; kw_reload := Some true;
            kw_terminate := None; kw_terminate_all := None;
            kw_listpids := None |} kwargs ;;
  ret tt.

Definition create_sandbox (self : Sandboxie) (box : string)
    (options : list (string * string)) : M unit :=
  _ <- _modify_config self
         (fun config =>
            lift (configparser.setitem (str_lower P) box options config)) ;;
  reload_config self no_kwargs.

Definition destroy_sandbox (self : Sandboxie) (box : string) : M unit :=
  _ <- _modify_config self
         (fun config => ret (snd (configparser.remove_section box config))) ;;
  reload_config self no_kwargs.

(** The parameter [box] is not the one passed on: the call says
    [box=None]. *)
Definition delete_contents (self : Sandboxie) (box : option string)
    (kwargs : Kwargs) : M unit :=
  _ <- call_start self
         {| kw_command := Some (Some "delete_sandbox_silent");
            kw_box := Some None; kw_silent := None;
            kw_wait := None; kw_nosbiectrl := None; kw_elevate := None;
            kw_disable_forced := None; kw_reload := None;
            kw_terminate := None; kw_terminate_all := None;
            kw_listpids := None |} kwargs ;;
  ret tt.

Definition terminate_processes (self : Sandboxie) (box : option string)
    (kwargs : Kwargs) : M unit :=
  _ <- call_start self
         {| kw_command := None; kw_box := Some box; kw_silent := None;
            kw_wait := None; kw_nosbiectrl := None; kw_elevate := None;
            kw_disable_forced := None; kw_reload := None;
            kw_terminate := Some true; kw_terminate_all := None;
            kw_listpids := None |} kwargs ;;
  ret tt.

Definition terminate_all_processes (self : Sandboxie) (kwargs : Kwargs)
    : M unit :=
  _ <- call_start self
         {| kw_command := None; kw_box := None; kw_silent := None;
            kw_wait := None; kw_nosbiectrl := None; kw_elevate := None;
            kw_disable_forced := None; kw_reload := None;
            kw_terminate := None; kw_terminate_all := Some true;
            kw_listpids := None |} kwargs ;;
  ret tt.

Definition running_processes (self : Sandboxie) (box : option string)
    (kwargs : Kwargs) : M (Py.generator Z) :=
  output <- call_start self
         {| kw_command := None; kw_box := Some box; kw_silent := None;
            kw_wait := Some true; kw_nosbiectrl := None; kw_elevate := None;
            kw_disable_forced := None; kw_reload := None;
            kw_terminate := None; kw_terminate_all := None;
            kw_listpids := Some true |} kwargs ;;
  ret (Py.genexpr Py.int (Py.split output)).

End Sandboxie.

(** ** Call sites and concrete data used below *)

(** The parameters of [start()] called with no argument. *)
Definition default_args : StartArgs :=
  {| command := None; box := None; silent := true; wait := false;
     nosbiectrl := true; elevate := false; disable_forced := false;
     reload := false; terminate := false; terminate_all := false;
     listpids := false |}.

Definition set_command (c : option string) (a : StartArgs) : StartArgs :=
  {| command := c; box := box a; silent := silent a; wait := wait a;
     nosbiectrl := nosbiectrl a; elevate := elevate a;
     disable_forced := disable_forced a; reload := reload a;
     terminate := terminate a; terminate_all := terminate_all a;
     listpids := listpids a |}.

Definition set_listpids (b : bool) (a : StartArgs) : StartArgs :=
  {| command := command a; box := box a; silent := silent a; wait := wait a;
     nosbiectrl := nosbiectrl a; elevate := elevate a;
     disable_forced := disable_forced a; reload := reload a;
     terminate := terminate a; terminate_all := terminate_all a;
     listpids := b |}.

(** The same call with the four control flags set as given. *)
Definition set_control_flags (r t ta l : bool) (a : StartArgs) : StartArgs :=
  {| command := command a; box := box a; silent := silent a; wait := wait a;
     nosbiectrl := nosbiectrl a; elevate := elevate a;
     disable_forced := disable_forced a; reload := r;
     terminate := t; terminate_all := ta; listpids := l |}.

(** The keywords of a call [start(c)]: the command, positionally. *)
Definition positional (c : string) : Kwargs :=
  {| kw_command := Some (Some c); kw_box := None; kw_silent := None;
     kw_wait := None; kw_nosbiectrl := None; kw_elevate := None;
     kw_disable_forced := None; kw_reload := None; kw_terminate := None;
     kw_terminate_all := None; kw_listpids := None |}.

Definition example_sandboxie : Sandboxie :=
  {| install_dir := "C:\Program Files\Sandboxie";
     defaultbox := "DefaultBox";
     config_path := "C:\WINDOWS\Sandboxie.ini" |}.

(** The config of [test_destroy_sandbox]. *)
Definition example_config : ConfigParser :=
  {| _defaults := ∅;
     _sections :=
       <["sandbox1" := {["enabled" := "yes"]}]>
         (<["sandbox2" := {["enabled" := "no"]}]> ∅) |}.

Definition example_world : World :=
  {| files := {[config_path example_sandboxie := ini_write example_config]};
     unwritable := ∅;
     invocations := [] |}.

(** A world whose launcher output is [output] on every call. *)
Definition platform_printing (output : string) : Platform :=
  {| os_path_join := os_path_join example_platform;
     str_lower := Py.ascii_lower;
     check_output := fun _ _ => ok output;
     read_file := ini_read_file;
     write := ini_write |}.

(** ** Optionally signed decimal numerals

    What the spec calls a numeric token, read off the grammar of integer
    literals: an optional sign, then digits, where a single underscore may
    stand between two digits.  [after_digit] tells whether the character
    just read was a digit. *)

Fixpoint numeral_tail (after_digit : bool) (s : string) : bool :=
  match s with
  | EmptyString => after_digit
  | String c s' =>
      if Py.isdigit c then numeral_tail true s'
      else if Ascii.eqb c "_" then after_digit && numeral_tail false s'
      else false
  end.

Definition numeric_token (s : string) : bool :=
  match s with
  | String c s' =>
      if Ascii.eqb c "-" || Ascii.eqb c "+" then numeral_tail false s'
      else numeral_tail false s
  | EmptyString => false
  end.

(** The numerals every interpreter reads alike: an optional sign, then
    decimal digits only, at least one. *)
Fixpoint all_digits (s : string) : bool :=
  match s with
  | EmptyString => true
  | String c s' => Py.isdigit c && all_digits s'
  end.

Definition digits (s : string) : bool :=
  match s with
  | EmptyString => false
  | _ => all_digits s
  end.

Definition plain_numeral (s : string) : bool :=
  match s with
  | String c s' =>
      if Ascii.eqb c "-" || Ascii.eqb c "+" then digits s' else digits s
  | EmptyString => false
  end.

(** No character of [s] is an underscore. *)
Fixpoint no_underscore (s : string) : bool :=
  match s with
  | EmptyString => true
  | String c s' => negb (Ascii.eqb c "_") && no_underscore s'
  end.

(** A token written with a minus sign. *)
Definition minus_signed (s : string) : bool :=
  match s with
  | String c _ => Ascii.eqb c "-"
  | EmptyString => false
  end.

(** No character of [s] is whitespace. *)
Fixpoint nospace (s : string) : bool :=
  match s with
  | EmptyString => true
  | String c s' => negb (Py.isspace c) && nospace s'
  end.

(** The parameters [running_processes(box)] calls [start] with. *)
Definition running_processes_args (box : option string) : StartArgs :=
  {| command := None; box := box; silent := true; wait := true;
     nosbiectrl := true; elevate := false; disable_forced := false;
     reload := false; terminate := false; terminate_all := false;
     listpids := true |}.

(** The parameters [reload_config()] calls [start] with. *)
Definition reload_args : StartArgs :=
  {| command := None; box := None; silent := true; wait := false;
     nosbiectrl := true; elevate := false; disable_forced := false;
     reload := true; terminate := false; terminate_all := false;
     listpids := false |}.

(** The options a section holds after [read_dict] has set the items of
    [options] in turn: each name goes through [optionxform] in [read_dict]
    and again in [set], and a later item replaces an earlier one stored
    under the same name. *)
Definition stored_options (lower : string -> string)
    (options : list (string * string)) : gmap string string :=
  fold_left
    (fun m '(key, value) =>
       <[configparser.optionxform lower (configparser.optionxform lower key)
         := value]> m)
    options ∅.

(** [config] with the section [name] holding [options]. *)
Definition with_section (name : string) (options : gmap string string)
    (config : ConfigParser) : ConfigParser :=
  {| _defaults := _defaults config;
     _sections := <[name := options]> (_sections config) |}.

(** What reading the config file back yields once [config] is written. *)
Definition reads_back (P : Platform)
    (config : ConfigParser) : Prop :=
  read_file P (write P config) = ok config.

(** ** Construction

    [os.environ] is a mapping from names to values; a path exists when the
    world has a file there. *)

(** [os.path.exists(path)] *)
Definition os_path_exists (path : string) : M bool :=
  fun w => (ok (bool_decide (is_Some (files w !! path))), w).

(** The loop of [_find_config_path] over the directories still to try. *)
Fixpoint find_config_in (P : Platform) (dirs : list string)
    : M (option string) :=
  match dirs with
  | [] => ret None
  | _dir :: dirs' =>
      let path := os_path_join P _dir "Sandboxie.ini" in
      (found <- os_path_exists path ;;
       if found then ret (Some path) else find_config_in P dirs')%M
  end.

(** [self._find_config_path()], run when [self.install_dir] is set: the
    tuple of directories needs [os.environ['WinDir']] first. *)
Definition _find_config_path (P : Platform) (environ : gmap string string)
    (install_dir : string) : M (option string) :=
  match environ !! "WinDir" with
  | None => lift (raise (Raised "KeyError"))
  | Some windir => find_config_in P [windir; install_dir]
  end.

(** [Sandboxie(defaultbox='DefaultBox', install_dir=None)] *)
Definition __init__ (P : Platform) (environ : gmap string string)
    (defaultbox : option string) (install_dir : option string)
    : M Sandboxie :=
  let install_dir :=
    match install_dir with
    | Some dir => dir
    | None =>
        default "C:\Program Files\Sandboxie"
                (environ !! "SANDBOXIE_INSTALL_DIR")
    end in
  let defaultbox := default "DefaultBox" defaultbox in
  (config_path <- _find_config_path P environ install_dir ;;
   match config_path with
   | None => lift (raise (Raised "SandboxieError"))
   | Some path =>
       ret {| install_dir := install_dir; defaultbox := defaultbox;
              config_path := path |}
   end)%M.

(** ** Further vocabulary for the properties *)

(** The flags of the launcher, in the order [start] appends them. *)
Definition canonical_flags : list string :=
  ["/silent"; "/wait"; "/nosbiectrl"; "/elevate"; "/dfp";
   "/reload"; "/terminate"; "/terminate_all"; "/listpids"].

(** The last argument of [start]: the command, made up only for
    [listpids]. *)
Definition final_command (a : StartArgs) : string :=
  match command a with
  | Some c => c
  | None => if listpids a then "| more" else ""
  end.

(** Some keyword is given both by the call and by the forwarded
    keywords. *)
Definition given_twice {A} (given extra : option A) : bool :=
  match given, extra with
  | Some _, Some _ => true
  | _, _ => false
  end.

Definition keyword_clash (given kwargs : Kwargs) : bool :=
  given_twice (kw_command given) (kw_command kwargs) ||
  given_twice (kw_box given) (kw_box kwargs) ||
  given_twice (kw_silent given) (kw_silent kwargs) ||
  given_twice (kw_wait given) (kw_wait kwargs) ||
  given_twice (kw_nosbiectrl given) (kw_nosbiectrl kwargs) ||
  given_twice (kw_elevate given) (kw_elevate kwargs) ||
  given_twice (kw_disable_forced given) (kw_disable_forced kwargs) ||
  given_twice (kw_reload given) (kw_reload kwargs) ||
  given_twice (kw_terminate given) (kw_terminate kwargs) ||
  given_twice (kw_terminate_all given) (kw_terminate_all kwargs) ||
  given_twice (kw_listpids given) (kw_listpids kwargs).

(** The launcher's answer to [/listpids], as the tests have it: the
    numbers in decimal, one per line, lines ended by CR LF. *)
Definition decimal (n : nat) : string :=
  NilZero.string_of_uint (Nat.to_uint n).

Definition print_pids (pids : list nat) : string :=
  String.concat CRLF (map decimal pids).

(** Every character of [s] is whitespace. *)
Fixpoint blank (s : string) : bool :=
  match s with
  | EmptyString => true
  | String c s' => Py.isspace c && blank s'
  end.

(** The options are set in the DEFAULT section. *)
Definition with_defaults (options : gmap string string)
    (config : ConfigParser) : ConfigParser :=
  {| _defaults := options; _sections := _sections config |}.

(** The value a parameter is bound to when it is not given twice. *)
Definition bound_value {A} (default : A) (given extra : option A) : A :=
  match given, extra with
  | Some v, _ => v
  | None, Some v => v
  | None, None => default
  end.

(** The parameters of [start] for keywords that do not clash. *)
Definition bound_args (given kwargs : Kwargs) : StartArgs :=
  {| command := bound_value None (kw_command given) (kw_command kwargs);
     box := bound_value None (kw_box given) (kw_box kwargs);
     silent := bound_value true (kw_silent given) (kw_silent kwargs);
     wait := bound_value false (kw_wait given) (kw_wait kwargs);
     nosbiectrl :=
       bound_value true (kw_nosbiectrl given) (kw_nosbiectrl kwargs);
     elevate := bound_value false (kw_elevate given) (kw_elevate kwargs);
     disable_forced :=
       bound_value false (kw_disable_forced given) (kw_disable_forced kwargs);
     reload := bound_value false (kw_reload given) (kw_reload kwargs);
     terminate := bound_value false (kw_terminate given) (kw_terminate kwargs);
     terminate_all :=
       bound_value false (kw_terminate_all given) (kw_terminate_all kwargs);
     listpids := bound_value false (kw_listpids given) (kw_listpids kwargs) |}.

(** The keywords of the call in [reload_config]. *)
Definition reload_keywords : Kwargs :=
  {| kw_command := None; kw_box := None; kw_silent := None;
     kw_wait := None; kw_nosbiectrl := None; kw_elevate := None;
     kw_disable_forced := None; kw_reload := Some true;
     kw_terminate := None; kw_terminate_all := None;
     kw_listpids := None |}.

(** What a wrapper that discards the launcher's output returns. *)
Definition discard_output (r : result string) : result unit :=
  match r with
  | inl e => inl e
  | inr _ => ok tt
  end.

(** The world after one more launcher run on [argv]. *)
Definition invoked (argv : list string) (w : World) : World :=
  {| files := files w; unwritable := unwritable w;
     invocations := invocations w ++ [argv] |}.

(** The world after the config file of [self] is replaced by [text]. *)
Definition written (self : Sandboxie) (text : string) (w : World) : World :=
  {| files := <[config_path self := text]> (files w);
     unwritable := unwritable w;
     invocations := invocations w |}.

(** * Properties *)

(** ** The command line built by [start] *)

Lemma In_append_if (flag : bool) (token t : string) (options : list string) :
  In t (append_if flag token options) <->
  In t options \/ (flag = true /\ t = token).
Proof.
  unfold append_if. destruct flag.
  - rewrite in_app_iff. simpl. intuition congruence.
  - intuition congruence.
Qed.

Lemma box_option_not_control (name t : string) :
  In t control_tokens -> t <> "/box:" +:+ name.
Proof.
  unfold control_tokens. simpl.
  intros [<- | [<- | [<- | [<- | []]]]]; discriminate.
Qed.

(** Steps 1 to 6 never emit a control flag. *)
Lemma start_flags_not_control (self : Sandboxie) (a : StartArgs) (t : string) :
  In t control_tokens -> ~ In t (start_flags self a).
Proof.
  intros Ht Hin. unfold start_flags in Hin.
  repeat (apply In_append_if in Hin;
          destruct Hin as [Hin | [_ ->]];
          [ | simpl in Ht; intuition discriminate ]).
  simpl in Hin. destruct Hin as [Heq | []].
  symmetry in Heq. revert Heq. apply box_option_not_control. assumption.
Qed.

(** The sandbox comes first. *)
Lemma start_flags_head (self : Sandboxie) (a : StartArgs) :
  exists rest,
    start_flags self a =
    ("/box:" +:+ match box a with None => defaultbox self | Some b => b end)
      :: rest.
Proof.
  unfold start_flags, append_if.
  destruct (silent a), (wait a), (nosbiectrl a), (elevate a),
    (disable_forced a); eexists; reflexivity.
Qed.

(** With a command, the control block is skipped. *)
Lemma start_control_command (a : StartArgs) (c : string)
    (options : list string) :
  command a = Some c -> start_control a options = (options, Some c).
Proof. intros H. unfold start_control. rewrite H. reflexivity. Qed.

Lemma or_present (c : string) : Py.or_ (Some c) "" = c.
Proof. destruct c; reflexivity. Qed.

Lemma start_argv_command (P : Platform) (self : Sandboxie) (a : StartArgs)
    (c : string) :
  command a = Some c ->
  start_argv P self a =
  os_path_join P (install_dir self) "Start.exe" :: start_flags self a ++ [c].
Proof.
  intros H. unfold start_argv.
  rewrite (start_control_command a c _ H), or_present. reflexivity.
Qed.

(** [start] runs the launcher once, on [start_argv]. *)
Lemma start_invokes (P : Platform) (self : Sandboxie) (a : StartArgs)
    (w : World) :
  start P self a w =
  (check_output P w (start_argv P self a),
   {| files := files w; unwritable := unwritable w;
      invocations := invocations w ++ [start_argv P self a] |}).
Proof. reflexivity. Qed.

Ltac strip_prefix H :=
  repeat
    match type of H with
    | (?p +:+ _ = _) =>
        destruct p; simpl in H;
        [ discriminate H | first [ discriminate H | injection H as _ H ] ]
    end.

(** A path whose last component is [Start.exe] is not a control flag. *)
Lemma start_exe_not_control (prefix t : string) :
  In t control_tokens -> t <> prefix +:+ "Start.exe".
Proof.
  unfold control_tokens. simpl.
  intros [<- | [<- | [<- | [<- | []]]]] H; symmetry in H; strip_prefix H.
Qed.

(** C1 (as amended).  When a command is present, [start] emits none of the
    control flags ([/reload], [/terminate], [/terminate_all],
    [/listpids]), however the four control flags are set: the argument
    list is the launcher path, the flags of steps 1 to 6 and the command,
    passed on unchanged as the last argument; neither the launcher path
    nor any flag is a control token, so that a control token can stand at
    the last position only, and only as the command itself; and the list
    is the same for every setting of the four control flags.  The launcher
    path is the installation directory joined with [Start.exe], so it ends
    in that name. *)
Theorem start_with_command_emits_no_control_flag
    (P : Platform) (self : Sandboxie) (a : StartArgs) (c : string) :
  command a = Some c ->
  (forall dir, exists prefix,
      os_path_join P dir "Start.exe" = prefix +:+ "Start.exe") ->
  let exe := os_path_join P (install_dir self) "Start.exe" in
  start_argv P self a = exe :: start_flags self a ++ [c] /\
  (forall t, In t control_tokens ->
             t <> exe /\ ~ In t (start_flags self a)) /\
  (forall i t,
      In t control_tokens -> start_argv P self a !! i = Some t ->
      i = length (start_flags self a) + 1 /\ t = c)%nat /\
  (forall r t ta l,
      start_argv P self (set_control_flags r t ta l a) = start_argv P self a).
Proof.
  intros Hc Hjoin exe.
  pose proof (start_argv_command P self a c Hc) as Hargv. fold exe in Hargv.
  assert (forall t, In t control_tokens ->
                    t <> exe /\ ~ In t (start_flags self a)) as Hnone.
  { intros t Ht. split.
    - subst exe. destruct (Hjoin (install_dir self)) as [prefix ->].
      apply start_exe_not_control. assumption.
    - apply start_flags_not_control. assumption. }
  split; [exact Hargv | split; [exact Hnone | split] ].
  - intros i t Ht Hi. rewrite Hargv in Hi.
    destruct (Hnone t Ht) as [Hexe Hflags].
    destruct i as [ | i]; cbn in Hi.
    + congruence.
    + destruct (lookup_app_Some (start_flags self a) [c] i t) as [Hcases _].
      destruct (Hcases Hi) as [Hin | [Hlen Hlast] ].
      * exfalso. apply Hflags. apply list_elem_of_In.
        apply (list_elem_of_lookup_2 _ i). exact Hin.
      * destruct (i - length (start_flags self a))%nat as [ | j] eqn:Hj;
          cbn in Hlast; [ | discriminate].
        split; [lia | congruence].
  - intros r t ta l.
    rewrite Hargv.
    rewrite (start_argv_command P self (set_control_flags r t ta l a) c Hc).
    reflexivity.
Qed.

(** The amended C1 at [start('test.exe', reload=True)], and at
    [start('/reload', reload=True)], where the one [/reload] of the list is
    the command. *)
Lemma start_with_command_emits_no_control_flag_witness :
  start_argv example_platform example_sandboxie
    (set_control_flags true false false false
       (set_command (Some "test.exe") default_args)) =
  ["C:\Program Files\Sandboxie\Start.exe"; "/box:DefaultBox"; "/silent";
   "/nosbiectrl"; "test.exe"] /\
  (forall i,
      start_argv example_platform example_sandboxie
        (set_control_flags true false false false
           (set_command (Some "/reload") default_args)) !! i =
        Some "/reload" ->
      i = 4%nat).
Proof.
  split.
  - destruct (start_with_command_emits_no_control_flag
                example_platform example_sandboxie
                (set_control_flags true false false false
                   (set_command (Some "test.exe") default_args)) "test.exe")
      as [Hargv _].
    + reflexivity.
    + intros dir. exists (dir +:+ "\"). reflexivity.
    + rewrite Hargv. reflexivity.
  - intros i Hi.
    destruct (start_with_command_emits_no_control_flag
                example_platform example_sandboxie
                (set_control_flags true false false false
                   (set_command (Some "/reload") default_args)) "/reload")
      as (_ & _ & Hlast & _).
    + reflexivity.
    + intros dir. exists (dir +:+ "\"). reflexivity.
    + destruct (Hlast i "/reload") as [Hpos _].
      * simpl. left. reflexivity.
      * exact Hi.
      * exact Hpos.
Defined.

(** C1 as stated fails when the command is spelled like a control flag:
    [start('/reload')] passes the command on as the last argument. *)
Lemma start_command_may_spell_control_flag :
  command (set_command (Some "/reload") default_args) <> None /\
  In "/reload" control_tokens /\
  In "/reload"
     (start_argv example_platform example_sandboxie
        (set_command (Some "/reload") default_args)).
Proof.
  split; [discriminate | split].
  - simpl. left. reflexivity.
  - vm_compute. do 4 right. left. reflexivity.
Qed.

(** C2.  Without a command and with [listpids] set, [start] emits
    [/listpids] and ends the argument list with the synthesized, non-empty
    command [| more]; when [listpids] is not set the last argument is the
    caller's command, and the empty string when there is none: no command
    is made up. *)
Theorem start_synthesizes_command_only_for_listpids
    (P : Platform) (self : Sandboxie) (a : StartArgs) :
  (command a = None -> listpids a = true ->
   In "/listpids" (start_argv P self a) /\
   last (start_argv P self a) = Some "| more" /\ "| more" <> "") /\
  (listpids a = false ->
   last (start_argv P self a) = Some (default "" (command a))).
Proof.
  split.
  - intros Hc Hl. unfold start_argv, start_control. rewrite Hc, Hl.
    split; [ | split; [ | discriminate ] ].
    + simpl. right. rewrite !in_app_iff. left. right. simpl. left. reflexivity.
    + rewrite app_assoc. apply last_snoc.
  - intros Hl. unfold start_argv, start_control. rewrite Hl.
    destruct (command a) as [c | ]; simpl default.
    + rewrite or_present, app_assoc. apply last_snoc.
    + rewrite app_assoc. apply last_snoc.
Qed.

(** C2 at [start(listpids=True)] and at [start()]. *)
Lemma start_synthesizes_command_only_for_listpids_witness :
  (In "/listpids"
      (start_argv example_platform example_sandboxie
         (set_listpids true default_args)) /\
   last (start_argv example_platform example_sandboxie
           (set_listpids true default_args)) = Some "| more") /\
  last (start_argv example_platform example_sandboxie default_args) = Some "".
Proof.
  split.
  - destruct (start_synthesizes_command_only_for_listpids
                example_platform example_sandboxie
                (set_listpids true default_args)) as [H _].
    destruct (H eq_refl eq_refl) as (H1 & H2 & _). split; assumption.
  - destruct (start_synthesizes_command_only_for_listpids
                example_platform example_sandboxie default_args) as [_ H].
    apply (H eq_refl).
Defined.

(** C7.  [start('test.exe')] runs the launcher on exactly
    [[<install_dir>/Start.exe, /box:<defaultbox>, /silent, /nosbiectrl,
    test.exe]]. *)
Theorem start_default_flags (P : Platform) (self : Sandboxie) (w : World) :
  let argv :=
    [os_path_join P (install_dir self) "Start.exe";
     "/box:" +:+ defaultbox self; "/silent"; "/nosbiectrl"; "test.exe"] in
  call_start P self (positional "test.exe") no_kwargs w =
  (check_output P w argv,
   {| files := files w; unwritable := unwritable w;
      invocations := invocations w ++ [argv] |}).
Proof.
  intros argv. unfold call_start, bind, lift.
  change (bind_start_args (positional "test.exe") no_kwargs)
    with (ok (set_command (Some "test.exe") default_args)).
  unfold ok at 1. cbv beta iota.
  rewrite start_invokes.
  rewrite (start_argv_command P self
             (set_command (Some "test.exe") default_args) "test.exe" eq_refl).
  reflexivity.
Qed.

(** C10.  With the empty string as command the control block is skipped as
    for any other command: the argument list is the launcher path, the
    flags of steps 1 to 6 (none of which is a control flag) and the empty
    command, which is its last token; any other command in its place gives
    the same flags. *)
Theorem start_empty_command_suppresses_control_flags
    (P : Platform) (self : Sandboxie) (a : StartArgs) :
  command a = Some "" ->
  start_argv P self a =
    os_path_join P (install_dir self) "Start.exe" :: start_flags self a ++ [""]
  /\ (forall t, In t control_tokens -> ~ In t (start_flags self a))
  /\ last (start_argv P self a) = Some ""
  /\ (forall c, start_argv P self (set_command (Some c) a) =
        os_path_join P (install_dir self) "Start.exe"
          :: start_flags self a ++ [c]).
Proof.
  intros Hc. pose proof (start_argv_command P self a "" Hc) as Hargv.
  split; [assumption | split; [ | split ] ].
  - intros t Ht. apply start_flags_not_control. assumption.
  - rewrite Hargv, app_comm_cons. apply last_snoc.
  - intros c. apply (start_argv_command P self (set_command (Some c) a) c).
    reflexivity.
Qed.

(** C10 at [start('', reload=True, terminate=True, terminate_all=True,
    listpids=True)]. *)
Lemma start_empty_command_suppresses_control_flags_witness :
  start_argv example_platform example_sandboxie
    {| command := Some ""; box := None; silent := true;
       wait := false; nosbiectrl := true; elevate := false;
       disable_forced := false; reload := true; terminate := true;
       terminate_all := true; listpids := true |} =
  ["C:\Program Files\Sandboxie\Start.exe"; "/box:DefaultBox"; "/silent";
   "/nosbiectrl"; ""].
Proof.
  destruct (start_empty_command_suppresses_control_flags
              example_platform example_sandboxie
              {| command := Some ""; box := None; silent := true;
                 wait := false; nosbiectrl := true; elevate := false;
                 disable_forced := false; reload := true; terminate := true;
                 terminate_all := true; listpids := true |} eq_refl)
    as [H _].
  rewrite H. reflexivity.
Defined.

(** ** Keyword binding *)

Lemma bind_arg_not_given {A} (keyword : string) (d : A) (extra : option A) :
  bind_arg keyword d None extra = ok (default d extra).
Proof. destruct extra; reflexivity. Qed.

(** C5.  [delete_contents] does the same whatever [box] it is given, the
    same as with [box=None]; when the call goes through (the extra
    keywords name neither the command nor the box, which the call already
    gives) the launcher is run once, on the default sandbox, with the
    command [delete_sandbox_silent]. *)
Theorem delete_contents_targets_default_box
    (P : Platform) (self : Sandboxie) (b : option string) (kwargs : Kwargs)
    (w : World) :
  delete_contents P self b kwargs w = delete_contents P self None kwargs w /\
  (kw_command kwargs = None -> kw_box kwargs = None ->
   exists argv,
     invocations (snd (delete_contents P self b kwargs w)) =
       invocations w ++ [argv] /\
     argv !! 1%nat = Some ("/box:" +:+ defaultbox self) /\
     last argv = Some "delete_sandbox_silent").
Proof.
  split; [reflexivity | ].
  intros Hc Hb.
  unfold delete_contents, call_start, bind, lift, bind_start_args.
  rewrite Hc, Hb. simpl kw_command. simpl kw_box. simpl bind_arg at 1 2.
  cbn [kw_silent kw_wait kw_nosbiectrl kw_elevate kw_disable_forced
       kw_reload kw_terminate kw_terminate_all kw_listpids rbind ok].
  rewrite !bind_arg_not_given. cbn [rbind ok].
  rewrite start_invokes.
  match goal with |- context [start_argv P self ?x] => set (a' := x) end.
  eexists. split; [destruct (check_output P _ _); reflexivity | ].
  erewrite start_argv_command by reflexivity.
  split; [ | rewrite app_comm_cons; apply last_snoc ].
  destruct (start_flags_head self) with (a := a') as [rest ->].
  reflexivity.
Qed.

(** C5 at [delete_contents(box='foo')]. *)
Lemma delete_contents_targets_default_box_witness :
  exists argv,
    invocations
      (snd (delete_contents example_platform example_sandboxie (Some "foo")
              no_kwargs example_world)) =
      invocations example_world ++ [argv] /\
    argv !! 1%nat = Some ("/box:" +:+ defaultbox example_sandboxie) /\
    last argv = Some "delete_sandbox_silent".
Proof.
  apply (proj2 (delete_contents_targets_default_box
                  example_platform example_sandboxie (Some "foo") no_kwargs
                  example_world)); reflexivity.
Defined.

(** ** Tokens and integer literals *)

Lemma nospace_snoc (s : string) (c : ascii) :
  nospace s = true -> Py.isspace c = false ->
  nospace (s +:+ String c EmptyString) = true.
Proof.
  intros Hs Hc. induction s as [ | c' s IH]; simpl in *.
  - rewrite Hc. reflexivity.
  - apply andb_true_iff in Hs. destruct Hs as [-> Hs]. simpl. auto.
Qed.

(** The tokens of [split] are non-empty and free of whitespace. *)
Lemma split_from_tokens (s cur tok : string) :
  nospace cur = true -> In tok (Py.split_from cur s) ->
  nospace tok = true /\ tok <> EmptyString.
Proof.
  revert cur. induction s as [ | c s IH]; intros cur Hcur Hin; simpl in Hin.
  - destruct cur; simpl in Hin; [contradiction | ].
    destruct Hin as [<- | []]. split; [assumption | discriminate].
  - destruct (Py.isspace c) eqn:Hc.
    + destruct cur.
      * apply (IH EmptyString); [reflexivity | assumption].
      * destruct Hin as [<- | Hin].
        -- split; [assumption | discriminate].
        -- apply (IH EmptyString); [reflexivity | assumption].
    + apply (IH (cur +:+ String c EmptyString)); [ | assumption].
      apply nospace_snoc; assumption.
Qed.

Lemma split_tokens (s tok : string) :
  In tok (Py.split s) -> nospace tok = true /\ tok <> EmptyString.
Proof. apply split_from_tokens. reflexivity. Qed.

Lemma strip_nospace (s : string) : nospace s = true -> Py.strip s = s.
Proof.
  intros Hs. unfold Py.strip.
  assert (Py.lstrip s = s) as ->.
  { destruct s as [ | c s]; [reflexivity | ]. simpl in *.
    destruct (Py.isspace c); [discriminate | reflexivity]. }
  induction s as [ | c s IH]; [reflexivity | ].
  simpl in *. apply andb_true_iff in Hs. destruct Hs as [Hc Hs].
  rewrite (IH Hs). destruct s; [ | reflexivity].
  destruct (Py.isspace c); [discriminate | reflexivity].
Qed.

Lemma digit_range (c : ascii) (d : Z) : Py.digit c = Some d -> 0 <= d <= 9.
Proof.
  unfold Py.digit. intros H.
  destruct (_ && _)%bool eqn:Hb; [ | discriminate].
  injection H as <-. apply andb_true_iff in Hb. lia.
Qed.

Lemma isdigit_digit (c : ascii) :
  Py.isdigit c = true <-> exists d, Py.digit c = Some d.
Proof.
  unfold Py.isdigit. destruct (Py.digit c) as [d | ].
  - split; eauto.
  - split; [discriminate | intros [d Hd]; discriminate].
Qed.

Lemma numeral_tail_false (s : string) :
  numeral_tail false s =
  match s with
  | String c _ => Py.isdigit c && numeral_tail true s
  | EmptyString => false
  end.
Proof.
  destruct s as [ | c s]; [reflexivity | ]. simpl.
  destruct (Py.isdigit c); [reflexivity | ].
  destruct (Ascii.eqb c "_"); reflexivity.
Qed.

(** The reader of digits accepts what the grammar accepts. *)
Lemma int_digits_numeral (s : string) (acc : Z) :
  is_Some (Py.int_digits acc s) <-> numeral_tail true s = true.
Proof.
  revert acc. induction s as [ | c s IH]; intros acc; simpl.
  - split; eauto.
  - change (Py.isdigit c)
      with (match Py.digit c with Some _ => true | None => false end).
    destruct (Py.digit c) as [d | ]; [apply IH | ].
    destruct (Ascii.eqb c "_").
    + simpl. rewrite numeral_tail_false. destruct s as [ | c' s'].
      * split; [intros [? ?]; discriminate | discriminate].
      * destruct (Py.isdigit c'); simpl andb; [apply IH | ].
        split; [intros [? ?]; discriminate | discriminate].
    + split; [intros [? ?]; discriminate | discriminate].
Qed.

Lemma int_unsigned_numeral (s : string) :
  is_Some (Py.int_unsigned s) <-> numeral_tail false s = true.
Proof.
  rewrite numeral_tail_false. destruct s as [ | c s]; simpl.
  - split; [intros [? ?]; discriminate | discriminate].
  - unfold Py.isdigit. destruct (Py.digit c) as [d | ]; simpl.
    + apply int_digits_numeral.
    + split; [intros [? ?]; discriminate | discriminate].
Qed.

(** [int] accepts a whitespace-free token exactly when it is an
    optionally signed decimal numeral. *)
Lemma int_numeric (tok : string) :
  nospace tok = true ->
  (exists n, Py.int tok = ok n) <-> numeric_token tok = true.
Proof.
  intros Hs. unfold Py.int. rewrite (strip_nospace tok Hs).
  unfold numeric_token. destruct tok as [ | c r].
  - split; [intros [? ?]; discriminate | discriminate].
  - destruct (Ascii.eqb c "-"); simpl orb.
    + rewrite <- int_unsigned_numeral.
      destruct (Py.int_unsigned r) as [n | ]; simpl.
      * split; eauto.
      * split; [intros [? ?]; discriminate | intros [? ?]; discriminate].
    + destruct (Ascii.eqb c "+"); rewrite <- int_unsigned_numeral.
      * destruct (Py.int_unsigned r) as [n | ]; simpl.
        -- split; eauto.
        -- split; [intros [? ?]; discriminate | intros [? ?]; discriminate].
      * destruct (Py.int_unsigned (String c r)) as [n | ]; simpl.
        -- split; eauto.
        -- split; [intros [? ?]; discriminate | intros [? ?]; discriminate].
Qed.

Lemma int_raises_ValueError (s : string) (e : exn) :
  Py.int s = raise e -> e = ValueError s.
Proof.
  unfold Py.int.
  match goal with
  | |- context [match ?v with Some _ => _ | None => _ end] => destruct v
  end; [discriminate | ].
  intros H. injection H as <-. reflexivity.
Qed.

Lemma int_not_numeric (tok : string) :
  nospace tok = true -> numeric_token tok = false ->
  Py.int tok = raise (ValueError tok).
Proof.
  intros Hs Hn. destruct (Py.int tok) as [e | n] eqn:Hint.
  - rewrite (int_raises_ValueError tok e Hint). reflexivity.
  - assert (numeric_token tok = true) as Hy
      by (apply (int_numeric tok Hs); exists n; assumption).
    congruence.
Qed.

Lemma int_digits_nonneg (s : string) (acc n : Z) :
  Py.int_digits acc s = Some n -> 0 <= acc -> 0 <= n.
Proof.
  revert acc. induction s as [ | c s IH]; intros acc H Hacc; simpl in H.
  - injection H as <-. assumption.
  - destruct (Py.digit c) as [d | ] eqn:Hd.
    + apply digit_range in Hd. apply (IH _ H). lia.
    + destruct (Ascii.eqb c "_"); [ | discriminate].
      destruct s as [ | c' s']; [discriminate | ].
      destruct (Py.isdigit c'); [ | discriminate].
      apply (IH _ H Hacc).
Qed.

Lemma int_unsigned_nonneg (s : string) (n : Z) :
  Py.int_unsigned s = Some n -> 0 <= n.
Proof.
  destruct s as [ | c s]; simpl; [discriminate | ].
  destruct (Py.digit c) as [d | ] eqn:Hd; [ | discriminate].
  intros H. apply (int_digits_nonneg _ _ _ H).
  apply digit_range in Hd. lia.
Qed.

(** Without a minus sign the value read is not negative. *)
Lemma int_nonneg (tok : string) (n : Z) :
  nospace tok = true -> minus_signed tok = false ->
  Py.int tok = ok n -> 0 <= n.
Proof.
  intros Hs Hm. unfold Py.int. rewrite (strip_nospace tok Hs).
  destruct tok as [ | c r]; [discriminate | ].
  simpl in Hm. rewrite Hm.
  destruct (Ascii.eqb c "+").
  - destruct (Py.int_unsigned r) as [m | ] eqn:Hu; [ | discriminate].
    intros H. injection H as <-. apply (int_unsigned_nonneg _ _ Hu).
  - destruct (Py.int_unsigned (String c r)) as [m | ] eqn:Hu; [ | discriminate].
    intros H. injection H as <-. apply (int_unsigned_nonneg _ _ Hu).
Qed.

(** ** Consuming a generator *)

Section Generators.

Context {A B : Type} (f : A -> result B).

(** A consumption that ends normally has produced one value per element,
    in order. *)
Lemma tuple_genexpr_ok (xs : list A) (ys : list B) :
  Py.tuple (Py.genexpr f xs) = ok ys ->
  Forall2 (fun x y => f x = ok y) xs ys.
Proof.
  revert ys. induction xs as [ | x xs IH]; intros ys H; simpl in H.
  - injection H as <-. constructor.
  - destruct (f x) as [e | y] eqn:Hx; [discriminate | ].
    fold (Py.genexpr f xs) in H.
    destruct (Py.tuple (Py.genexpr f xs)) as [e | l]; [discriminate | ].
    injection H as <-. constructor; [assumption | apply IH; reflexivity].
Qed.

Lemma tuple_genexpr_all_ok (xs : list A) (ys : list B) :
  Forall2 (fun x y => f x = ok y) xs ys ->
  Py.tuple (Py.genexpr f xs) = ok ys.
Proof.
  induction 1 as [ | x y xs ys Hx _ IH]; simpl; [reflexivity | ].
  rewrite Hx. fold (Py.genexpr f xs). rewrite IH. reflexivity.
Qed.

(** An element that [f] rejects is never skipped: the consumption raises,
    with the exception of the first rejected element. *)
Lemma tuple_genexpr_raises (xs : list A) (x : A) (e : exn) :
  In x xs -> f x = raise e ->
  exists x' e', In x' xs /\ f x' = raise e' /\
                Py.tuple (Py.genexpr f xs) = raise e'.
Proof.
  induction xs as [ | x0 xs IH]; intros Hin Hx; [contradiction | ].
  simpl. destruct (f x0) as [e0 | y0] eqn:Hx0.
  - exists x0, e0. repeat split; [left; reflexivity | assumption].
  - destruct Hin as [-> | Hin]; [rewrite Hx in Hx0; discriminate | ].
    destruct (IH Hin Hx) as (x' & e' & Hin' & Hx' & Ht).
    exists x', e'. fold (Py.genexpr f xs). rewrite Ht.
    repeat split; [right; assumption | assumption].
Qed.

End Generators.

(** ** The pid parser *)

(** [running_processes(box)] asks the launcher for the pids, waiting, and
    wraps its output in a generator without reading any token yet. *)
Lemma running_processes_output (P : Platform) (self : Sandboxie)
    (b : option string) (w : World) (output : string) :
  check_output P w (start_argv P self (running_processes_args b)) = ok output ->
  running_processes P self b no_kwargs w =
  (ok (Py.genexpr Py.int (Py.split output)),
   {| files := files w; unwritable := unwritable w;
      invocations :=
        invocations w ++ [start_argv P self (running_processes_args b)] |}).
Proof.
  intros Hout. unfold running_processes, call_start, bind, lift.
  change (bind_start_args _ no_kwargs) with (ok (running_processes_args b)).
  unfold ok at 1. cbv beta iota. rewrite start_invokes, Hout. reflexivity.
Qed.

Lemma Forall2_strengthen {A B} (Q : A -> Prop) (R R' : A -> B -> Prop)
    (xs : list A) (ys : list B) :
  (forall x y, Q x -> R x y -> R' x y) ->
  Forall Q xs -> Forall2 R xs ys -> Forall2 R' xs ys.
Proof.
  intros Himp HQ HR. induction HR as [ | x y xs ys Hxy _ IH].
  - constructor.
  - inversion HQ; subst. constructor; auto.
Qed.

(** C4.  On the output ["13\r\n2705\r\n1336\r\n2914"] the generator
    returned by [running_processes] yields 13, 2705, 1336, 2914 in that
    order; and whenever some whitespace-separated token of the output is
    not an (optionally signed) decimal numeral, consuming the generator
    raises [ValueError] on such a token instead of leaving it out. *)
Theorem running_processes_parses_or_fails
    (P : Platform) (self : Sandboxie) (b : option string) (w : World)
    (output : string) :
  check_output P w (start_argv P self (running_processes_args b)) = ok output ->
  exists g w',
    running_processes P self b no_kwargs w = (ok g, w') /\
    (output = example_pidlist -> Py.tuple g = ok [13; 2705; 1336; 2914]) /\
    (forall tok,
        In tok (Py.split output) -> numeric_token tok = false ->
        exists bad,
          In bad (Py.split output) /\ numeric_token bad = false /\
          Py.tuple g = raise (ValueError bad)).
Proof.
  intros Hout. eexists _, _.
  split; [apply running_processes_output; exact Hout | split].
  - intros ->. reflexivity.
  - intros tok Hin Hnum.
    destruct (split_tokens _ _ Hin) as [Hs _].
    destruct (tuple_genexpr_raises Py.int _ tok _ Hin
                (int_not_numeric tok Hs Hnum))
      as (bad & e & Hbad & Hint & Htuple).
    exists bad. rewrite Htuple, (int_raises_ValueError bad e Hint).
    split; [assumption | split; [ | reflexivity] ].
    destruct (numeric_token bad) eqn:Hn; [ | reflexivity].
    destruct (split_tokens _ _ Hbad) as [Hsb _].
    apply (int_numeric bad Hsb) in Hn. destruct Hn as [n Hn].
    rewrite Hn in Hint. discriminate.
Qed.

(** C4 on the launcher output of the unit tests, and on an output with the
    token [ABC]. *)
Lemma running_processes_parses_or_fails_witness :
  (exists g w',
      running_processes example_platform example_sandboxie None no_kwargs
        example_world = (ok g, w') /\
      Py.tuple g = ok [13; 2705; 1336; 2914]) /\
  (exists g w' bad,
      running_processes (platform_printing ("13" +:+ CRLF +:+ "ABC"))
        example_sandboxie None no_kwargs example_world = (ok g, w') /\
      Py.tuple g = raise (ValueError bad)).
Proof.
  split.
  - destruct (running_processes_parses_or_fails
                example_platform example_sandboxie None example_world
                example_pidlist eq_refl) as (g & w' & Hrun & Hpids & _).
    exists g, w'. split; [exact Hrun | exact (Hpids eq_refl)].
  - destruct (running_processes_parses_or_fails
                (platform_printing ("13" +:+ CRLF +:+ "ABC"))
                example_sandboxie None example_world
                ("13" +:+ CRLF +:+ "ABC") eq_refl)
      as (g & w' & Hrun & _ & Hbad).
    destruct (Hbad "ABC") as (bad & _ & _ & Htuple).
    + vm_compute. right. left. reflexivity.
    + reflexivity.
    + exists g, w', bad. split; assumption.
Defined.

(** C6 (as amended).  Every process identifier produced by
    [running_processes] is the value [int] reads from one
    whitespace-separated token of the launcher output, token by token and
    in order; it is non-negative unless the token is written with a minus
    sign.  (Zero, and negative values for signed tokens, can occur.) *)
Theorem running_processes_pids_are_token_values
    (P : Platform) (self : Sandboxie) (b : option string) (w : World)
    (output : string) :
  check_output P w (start_argv P self (running_processes_args b)) = ok output ->
  exists g w',
    running_processes P self b no_kwargs w = (ok g, w') /\
    forall pids,
      Py.tuple g = ok pids ->
      Forall2 (fun tok pid =>
                 Py.int tok = ok pid /\ (minus_signed tok = false -> 0 <= pid))
              (Py.split output) pids.
Proof.
  intros Hout. eexists _, _.
  split; [apply running_processes_output; exact Hout | ].
  intros pids Htuple. apply tuple_genexpr_ok in Htuple.
  apply (Forall2_strengthen (fun tok => nospace tok = true)
           (fun tok pid => Py.int tok = ok pid)); [ | | assumption].
  - intros tok pid Hs Hint. split; [assumption | ].
    intros Hm. apply (int_nonneg tok pid Hs Hm Hint).
  - apply List.Forall_forall. intros tok Hin. apply (split_tokens _ _ Hin).
Qed.

(** The amended C6 on the launcher output of the unit tests. *)
Lemma running_processes_pids_are_token_values_witness :
  exists g w',
    running_processes example_platform example_sandboxie None no_kwargs
      example_world = (ok g, w') /\
    forall pids,
      Py.tuple g = ok pids ->
      Forall2 (fun tok pid =>
                 Py.int tok = ok pid /\ (minus_signed tok = false -> 0 <= pid))
              (Py.split example_pidlist) pids.
Proof.
  apply (running_processes_pids_are_token_values
           example_platform example_sandboxie None example_world
           example_pidlist).
  reflexivity.
Defined.

(** C6 as stated fails on a launcher that prints [0]: the token is read as
    the integer 0, which is not positive. *)
Lemma running_processes_may_yield_zero :
  exists g w',
    running_processes (platform_printing "0") example_sandboxie None
      no_kwargs example_world = (ok g, w') /\
    Py.tuple g = ok [0] /\
    ~ Forall (fun pid => 0 < pid) [0].
Proof.
  eexists _, _. split; [reflexivity | split; [reflexivity | ] ].
  intros H. inversion H; subst. lia.
Qed.

(** ** The config transaction *)

(** Reading the config leaves the world as it is. *)
Lemma get_config_world (P : Platform) (self : Sandboxie) (w : World) :
  snd (get_config P self w) = w.
Proof.
  unfold get_config, bind, _open_config_file, lift.
  destruct (files w !! config_path self); reflexivity.
Qed.

Lemma get_config_lookup (P : Platform) (self : Sandboxie) (w : World)
    (text : string) :
  files w !! config_path self = Some text ->
  get_config P self w = (read_file P text, w).
Proof.
  intros H. unfold get_config, bind, _open_config_file, lift.
  rewrite H. reflexivity.
Qed.

Lemma get_config_ok (P : Platform) (self : Sandboxie) (w : World)
    (config : ConfigParser) :
  fst (get_config P self w) = ok config ->
  get_config P self w = (ok config, w).
Proof.
  intros H. pose proof (get_config_world P self w) as Hw.
  destruct (get_config P self w) as [r w0]. simpl in *. congruence.
Qed.

(** On a file that can be opened for writing, writing replaces the text of
    the config file and nothing else. *)
Lemma write_config_world (P : Platform) (self : Sandboxie) (w : World)
    (config : ConfigParser) :
  config_path self ∉ unwritable w ->
  _write_config P self config w =
  (ok tt,
   {| files := <[config_path self := write P config]> (files w);
      unwritable := unwritable w;
      invocations := invocations w |}).
Proof.
  intros Hw. unfold _write_config, bind, _open_config_file, config_write.
  rewrite (bool_decide_eq_false_2 _ Hw). unfold ok at 1. cbn.
  rewrite insert_insert_eq. reflexivity.
Qed.

(** On a file that cannot be opened for writing, [io.open] raises and
    nothing is written. *)
Lemma write_config_refused (P : Platform) (self : Sandboxie) (w : World)
    (config : ConfigParser) :
  config_path self ∈ unwritable w ->
  _write_config P self config w = (raise (IOError (config_path self)), w).
Proof.
  intros Hw. unfold _write_config, bind, _open_config_file.
  rewrite (bool_decide_eq_true_2 _ Hw). reflexivity.
Qed.

(** Once the config is read, the block runs, and the write follows a
    normal end of the block only. *)
Lemma modify_config_after_read (P : Platform) (self : Sandboxie)
    (block : ConfigParser -> M ConfigParser)
    (w : World) (config : ConfigParser) :
  fst (get_config P self w) = ok config ->
  _modify_config P self block w =
  match block config w with
  | (inl e, w') => (inl e, w')
  | (inr config', w') => _write_config P self config' w'
  end.
Proof.
  intros Hget. unfold _modify_config, bind at 1.
  rewrite (get_config_ok P self w config Hget). reflexivity.
Qed.

(** Reloading runs the launcher once, in the world as it is, and touches
    no file; it fails only if the launcher does. *)
Lemma reload_config_world (P : Platform) (self : Sandboxie) (w : World) :
  reload_config P self no_kwargs w =
  (discard_output (check_output P w (start_argv P self reload_args)),
   invoked (start_argv P self reload_args) w).
Proof.
  unfold reload_config, call_start, bind, lift.
  change (bind_start_args _ no_kwargs) with (ok reload_args).
  unfold ok at 1. cbv beta iota. rewrite start_invokes.
  destruct (check_output P w _); reflexivity.
Qed.

(** C3.  In a [with self._modify_config() as config] statement whose
    config was read, a block that raises leaves the world as the block
    left it: the exception is passed on and nothing is written; a block
    that ends normally has the config, as the block left it, written to
    the config file, and nothing else changed.  (The write is the one of
    [_write_config]: on a file that [io.open] refuses to open for writing
    it raises [IOError] instead, and the world stays as the block left
    it.) *)
Theorem modify_config_writes_on_normal_exit_only
    (P : Platform) (self : Sandboxie)
    (block : ConfigParser -> M ConfigParser)
    (w : World) (config : ConfigParser)
    (r : result ConfigParser) (w' : World) :
  fst (get_config P self w) = ok config ->
  block config w = (r, w') ->
  match r with
  | inl e => _modify_config P self block w = (raise e, w')
  | inr config' =>
      (config_path self ∉ unwritable w' ->
       _modify_config P self block w =
       (ok tt,
        {| files := <[config_path self := write P config']> (files w');
           unwritable := unwritable w';
           invocations := invocations w' |})) /\
      (config_path self ∈ unwritable w' ->
       _modify_config P self block w =
       (raise (IOError (config_path self)), w'))
  end.
Proof.
  intros Hget Hblock.
  rewrite (modify_config_after_read P self block w config Hget), Hblock.
  destruct r as [e | config'].
  - reflexivity.
  - split; intros Hw.
    + apply write_config_world. exact Hw.
    + apply write_config_refused. exact Hw.
Qed.

(** C3 on the config of the unit tests: a block that removes a section and
    then raises, and a block that removes it and ends normally. *)
Lemma modify_config_writes_on_normal_exit_only_witness :
  _modify_config example_platform example_sandboxie
    (fun config =>
       _ <- ret (snd (configparser.remove_section "sandbox1" config)) ;;
       lift (raise (Raised "KeyboardInterrupt")))%M
    example_world =
  (raise (Raised "KeyboardInterrupt"), example_world) /\
  _modify_config example_platform example_sandboxie
    (fun config => ret (snd (configparser.remove_section "sandbox1" config)))
    example_world =
  (ok tt,
   {| files :=
        <[config_path example_sandboxie :=
            ini_write
              (snd (configparser.remove_section "sandbox1" example_config))]>
          (files example_world);
      unwritable := ∅;
      invocations := [] |}).
Proof.
  split.
  - apply (modify_config_writes_on_normal_exit_only
             example_platform example_sandboxie _ example_world
             example_config (raise (Raised "KeyboardInterrupt"))
             example_world).
    + vm_compute. reflexivity.
    + reflexivity.
  - destruct (modify_config_writes_on_normal_exit_only
                example_platform example_sandboxie
                (fun config =>
                   ret (snd (configparser.remove_section "sandbox1" config)))
                example_world example_config
                (ok (snd (configparser.remove_section "sandbox1"
                            example_config)))
                example_world) as [H _].
    + vm_compute. reflexivity.
    + reflexivity.
    + apply H. apply not_elem_of_empty.
Defined.

(** ** Setting and removing sections *)

Section Setting.

Context (lower : string -> string).

(** Setting an accepted value in a section that exists. *)
Lemma set_in_section (name key value : string) (d : gmap string string)
    (S : gmap string (gmap string string)) (m : gmap string string) :
  name <> "" -> name <> configparser.default_section ->
  configparser.valid_interpolation value = true ->
  configparser.set_ lower name key value
    {| _defaults := d; _sections := <[name := m]> S |} =
  ok {| _defaults := d;
        _sections :=
          <[name := <[configparser.optionxform lower key := value]> m]> S |}.
Proof.
  intros Hne Hnd Hv. unfold configparser.set_.
  assert (match value with
          | EmptyString => ok value
          | _ => configparser.before_set value
          end = ok value) as ->.
  { destruct value; [reflexivity | ].
    unfold configparser.before_set. rewrite Hv. reflexivity. }
  unfold rbind, ok at 1.
  rewrite (bool_decide_eq_false_2 _ Hne), (bool_decide_eq_false_2 _ Hnd).
  cbn [orb configparser._sections configparser._defaults].
  rewrite lookup_insert_eq, insert_insert_eq.
  reflexivity.
Qed.

Lemma read_options_in_section (name : string) (options : list (string * string))
    (d : gmap string string) (S : gmap string (gmap string string))
    (m : gmap string string) :
  name <> "" -> name <> configparser.default_section ->
  Forall (fun item => configparser.valid_interpolation (snd item) = true)
         options ->
  fold_left
    (fun r '(key, value) =>
       rbind r (fun config =>
                  configparser.set_ lower name
                    (configparser.optionxform lower key) value config))
    options (ok {| _defaults := d; _sections := <[name := m]> S |}) =
  ok {| _defaults := d;
        _sections :=
          <[name := fold_left
                      (fun m '(key, value) =>
                         <[configparser.optionxform lower
                             (configparser.optionxform lower key) := value]> m)
                      options m]> S |}.
Proof.
  intros Hne Hnd Hvalid. revert m.
  induction Hvalid as [ | [key value] options Hv _ IH]; intros m.
  - reflexivity.
  - cbn [fold_left]. unfold rbind at 2, ok at 1.
    rewrite (set_in_section name _ value d S m Hne Hnd Hv). apply IH.
Qed.

(** [config[name] = options] on a proper section name, with accepted
    values: the section [name] is replaced and nothing else changes. *)
Lemma setitem_section (name : string) (options : list (string * string))
    (config : ConfigParser) :
  name <> "" -> name <> configparser.default_section ->
  Forall (fun item => configparser.valid_interpolation (snd item) = true)
         options ->
  configparser.setitem lower name options config =
  ok (with_section name (stored_options lower options) config).
Proof.
  intros Hne Hnd Hvalid. destruct config as [d S].
  unfold configparser.setitem, configparser.read_dict, configparser.add_section.
  rewrite !(bool_decide_eq_false_2 _ Hnd).
  cbn [configparser._sections configparser._defaults].
  destruct (S !! name) as [old | ] eqn:Hold;
    cbn [configparser._sections configparser._defaults].
  - rewrite lookup_insert_eq. unfold raise at 1.
    apply (read_options_in_section name options d S ∅ Hne Hnd Hvalid).
  - rewrite Hold. unfold ok at 1.
    apply (read_options_in_section name options d S ∅ Hne Hnd Hvalid).
Qed.

End Setting.

(** What [remove_section] leaves. *)
Lemma remove_section_sections (name : string) (config : ConfigParser) :
  _sections (snd (configparser.remove_section name config)) =
    delete name (_sections config) /\
  _defaults (snd (configparser.remove_section name config)) =
    _defaults config.
Proof.
  unfold configparser.remove_section.
  destruct (_sections config !! name) eqn:H; simpl.
  - split; reflexivity.
  - split; [ | reflexivity]. symmetry. apply delete_id. assumption.
Qed.

Lemma remove_section_absent (name : string) (config : ConfigParser) :
  _sections config !! name = None ->
  configparser.remove_section name config = (false, config).
Proof. intros H. unfold configparser.remove_section. rewrite H. reflexivity. Qed.

(** ** Creating and destroying sandboxes *)

(** An edit of the config that succeeds, followed by the reload, on a file
    that can be opened for writing: the file is written first, and the
    launcher runs in the world that holds the edited config; the
    launcher's failure is the only one possible. *)
Lemma edit_then_reload (P : Platform) (self : Sandboxie) (w : World)
    (config config' : ConfigParser)
    (edit : ConfigParser -> result ConfigParser) :
  fst (get_config P self w) = ok config ->
  edit config = ok config' ->
  config_path self ∉ unwritable w ->
  (_ <- _modify_config P self (fun c => lift (edit c)) ;;
   reload_config P self no_kwargs)%M w =
  (discard_output
     (check_output P (written self (write P config') w)
        (start_argv P self reload_args)),
   invoked (start_argv P self reload_args)
     (written self (write P config') w)).
Proof.
  intros Hget Hedit Hw. unfold bind at 1.
  rewrite (modify_config_after_read P self _ w config Hget).
  unfold lift. rewrite Hedit. unfold ok at 1. cbv beta iota.
  rewrite (write_config_world P self w config' Hw).
  unfold ok at 1. cbv beta iota.
  rewrite reload_config_world. reflexivity.
Qed.

(** The same on a file that cannot be opened for writing: the write
    raises, and the reload is not reached. *)
Lemma edit_then_refused (P : Platform) (self : Sandboxie) (w : World)
    (config config' : ConfigParser)
    (edit : ConfigParser -> result ConfigParser) :
  fst (get_config P self w) = ok config ->
  edit config = ok config' ->
  config_path self ∈ unwritable w ->
  (_ <- _modify_config P self (fun c => lift (edit c)) ;;
   reload_config P self no_kwargs)%M w =
  (raise (IOError (config_path self)), w).
Proof.
  intros Hget Hedit Hw. unfold bind at 1.
  rewrite (modify_config_after_read P self _ w config Hget).
  unfold lift. rewrite Hedit. unfold ok at 1. cbv beta iota.
  rewrite (write_config_refused P self w config' Hw). reflexivity.
Qed.

(** An edit that raises: nothing is written and the launcher is not
    run. *)
Lemma edit_raises_then_no_reload (P : Platform) (self : Sandboxie) (w : World)
    (config : ConfigParser) (e : exn)
    (edit : ConfigParser -> result ConfigParser) :
  fst (get_config P self w) = ok config ->
  edit config = raise e ->
  (_ <- _modify_config P self (fun c => lift (edit c)) ;;
   reload_config P self no_kwargs)%M w = (raise e, w).
Proof.
  intros Hget Hedit. unfold bind at 1.
  rewrite (modify_config_after_read P self _ w config Hget).
  unfold lift. rewrite Hedit. reflexivity.
Qed.

Lemma get_config_after_write (P : Platform) (self : Sandboxie)
    (w : World) (config : ConfigParser) :
  reads_back P config ->
  fst (get_config P self (written self (write P config) w)) = ok config.
Proof.
  intros Hback. erewrite get_config_lookup.
  - exact Hback.
  - apply lookup_insert_eq.
Qed.

(** C8 does not hold of the code.  At [create_sandbox('foo',
    {'OpenFilePath': '%Personal%'})] on the config of the unit tests,
    [config[box] = options] raises [ValueError] inside the block: the
    parser is built with the default interpolation, which refuses a value
    with a percent sign that neither is doubled nor opens [%(name)s].
    Nothing is written and the launcher is not run, so that a read
    afterwards finds the config of before, without a profile [foo]. *)
Theorem create_sandbox_refuses_percent_value :
  create_sandbox example_platform example_sandboxie "foo"
    [("OpenFilePath", "%Personal%")] example_world =
  (raise (ValueError "%Personal%"), example_world) /\
  fst (get_config example_platform example_sandboxie
         (snd (create_sandbox example_platform example_sandboxie "foo"
                 [("OpenFilePath", "%Personal%")] example_world))) =
    ok example_config /\
  _sections example_config !! "foo" = None.
Proof.
  split; [vm_compute; reflexivity | ].
  split; vm_compute; reflexivity.
Qed.

(** C9.  On a config file that reads as [config], and provided the file
    written reads back as the config written, [destroy_sandbox(name)]
    leaves a config without the profile [name] in which every other
    profile is as before; the removal raises nothing (the outcome of
    [destroy_sandbox] is the outcome of the reload it ends with, which runs
    once the file is written), and when [config] has no profile [name]
    the config read afterwards is [config] itself.  (On a file that
    [io.open] refuses to open for writing the call raises [IOError]
    instead and leaves the world, and so every profile, as it was.) *)
Theorem destroy_sandbox_removes_profile_only
    (P : Platform) (self : Sandboxie) (w : World) (config : ConfigParser)
    (name : string) :
  fst (get_config P self w) = ok config ->
  reads_back P (snd (configparser.remove_section name config)) ->
  (config_path self ∉ unwritable w ->
   fst (destroy_sandbox P self name w) =
     fst (reload_config P self no_kwargs
            (written self
               (write P (snd (configparser.remove_section name config))) w)) /\
   exists config',
     fst (get_config P self (snd (destroy_sandbox P self name w))) =
       ok config' /\
     _sections config' !! name = None /\
     (forall p, p <> name -> _sections config' !! p = _sections config !! p) /\
     (_sections config !! name = None -> config' = config)) /\
  (config_path self ∈ unwritable w ->
   destroy_sandbox P self name w = (raise (IOError (config_path self)), w)).
Proof.
  intros Hget Hback. split; intros Hw.
  - pose proof (edit_then_reload P self w config
                  (snd (configparser.remove_section name config))
                  (fun c => ok (snd (configparser.remove_section name c)))
                  Hget eq_refl Hw) as Hrun.
    change (destroy_sandbox P self name w =
            (discard_output
               (check_output P
                  (written self
                     (write P (snd (configparser.remove_section name config)))
                     w)
                  (start_argv P self reload_args)),
             invoked (start_argv P self reload_args)
               (written self
                  (write P (snd (configparser.remove_section name config)))
                  w)))
      in Hrun.
    rewrite Hrun.
    rewrite reload_config_world. cbn [fst snd].
    split; [reflexivity | ].
    exists (snd (configparser.remove_section name config)). split.
    + apply (get_config_after_write P self
               (invoked (start_argv P self reload_args) w)). assumption.
    + destruct (remove_section_sections name config) as [-> _].
      split; [ | split].
      * apply lookup_delete_eq.
      * intros p Hp. apply lookup_delete_ne. congruence.
      * intros Habs. rewrite (remove_section_absent name config Habs).
        reflexivity.
  - exact (edit_then_refused P self w config
             (snd (configparser.remove_section name config))
             (fun c => ok (snd (configparser.remove_section name c)))
             Hget eq_refl Hw).
Qed.

(** C9 at [destroy_sandbox('sandbox1')] on the config of the unit tests. *)
Lemma destroy_sandbox_removes_profile_only_witness :
  exists config',
    fst (get_config example_platform example_sandboxie
           (snd (destroy_sandbox example_platform example_sandboxie
                   "sandbox1" example_world))) = ok config' /\
    _sections config' !! "sandbox1" = None /\
    (forall p, p <> "sandbox1" ->
               _sections config' !! p = _sections example_config !! p) /\
    (_sections example_config !! "sandbox1" = None ->
     config' = example_config).
Proof.
  destruct (destroy_sandbox_removes_profile_only
              example_platform example_sandboxie example_world
              example_config "sandbox1") as [H _].
  - vm_compute. reflexivity.
  - vm_compute. reflexivity.
  - destruct (H (not_elem_of_empty _)) as [_ Hread]. exact Hread.
Defined.

(** ** The unit tests of the repository, replayed on the model *)

Example test_start_wait_true :
  start_argv example_platform example_sandboxie
    {| command := Some "test.exe"; box := None; silent := true; wait := true;
       nosbiectrl := true; elevate := false; disable_forced := false;
       reload := false; terminate := false; terminate_all := false;
       listpids := false |} =
  ["C:\Program Files\Sandboxie\Start.exe"; "/box:DefaultBox"; "/silent";
   "/wait"; "/nosbiectrl"; "test.exe"].
Proof. reflexivity. Qed.

Example test_start_box_param_overrides_defaultbox :
  start_argv example_platform example_sandboxie
    {| command := Some "test.exe"; box := Some "anotherbox"; silent := true;
       wait := false; nosbiectrl := true; elevate := false;
       disable_forced := false; reload := false; terminate := false;
       terminate_all := false; listpids := false |} =
  ["C:\Program Files\Sandboxie\Start.exe"; "/box:anotherbox"; "/silent";
   "/nosbiectrl"; "test.exe"].
Proof. reflexivity. Qed.

Example test_start_reload_not_ignored_when_command_is_none :
  start_argv example_platform example_sandboxie reload_args =
  ["C:\Program Files\Sandboxie\Start.exe"; "/box:DefaultBox"; "/silent";
   "/nosbiectrl"; "/reload"; ""].
Proof. reflexivity. Qed.

Example test_start_terminate_ignored_when_command_not_none :
  start_argv example_platform example_sandboxie
    {| command := Some "test.exe"; box := None; silent := true; wait := false;
       nosbiectrl := true; elevate := false; disable_forced := false;
       reload := false; terminate := true; terminate_all := false;
       listpids := false |} =
  ["C:\Program Files\Sandboxie\Start.exe"; "/box:DefaultBox"; "/silent";
   "/nosbiectrl"; "test.exe"].
Proof. reflexivity. Qed.

Example test_running_processes_returns_pidlist_generator :
  fst (running_processes example_platform example_sandboxie None no_kwargs
         example_world) = ok [ok 13; ok 2705; ok 1336; ok 2914].
Proof. reflexivity. Qed.

Example test_create_sandbox :
  files (snd (create_sandbox example_platform example_sandboxie "foo"
                [("Enabled", "yes")] example_world))
    !! config_path example_sandboxie =
  Some ("[sandbox1]" +:+ LF +:+ "enabled = yes" +:+ LF +:+ LF +:+
        "[sandbox2]" +:+ LF +:+ "enabled = no" +:+ LF +:+ LF +:+
        "[foo]" +:+ LF +:+ "enabled = yes" +:+ LF +:+ LF).
Proof. vm_compute. reflexivity. Qed.

Example test_destroy_sandbox :
  files (snd (destroy_sandbox example_platform example_sandboxie "sandbox1"
                example_world)) !! config_path example_sandboxie =
  Some ("[sandbox2]" +:+ LF +:+ "enabled = no" +:+ LF +:+ LF).
Proof. vm_compute. reflexivity. Qed.

Example keyword_given_twice :
  fst (running_processes example_platform example_sandboxie None
         {| kw_command := None; kw_box := None; kw_silent := None;
            kw_wait := Some false; kw_nosbiectrl := None; kw_elevate := None;
            kw_disable_forced := None; kw_reload := None;
            kw_terminate := None; kw_terminate_all := None;
            kw_listpids := None |} example_world) = raise (TypeError "wait").
Proof. reflexivity. Qed.

Example int_literals :
  Py.int "00012" = ok 12 /\ Py.int "-5" = ok (-5) /\ Py.int "+7" = ok 7 /\
  Py.int "1_0" = ok 10 /\ Py.int "1__0" = raise (ValueError "1__0") /\
  Py.int "" = raise (ValueError "") /\ Py.int "ABC" = raise (ValueError "ABC").
Proof. repeat split; reflexivity. Qed.

(** Setting the section [DEFAULT] sets the defaults and creates no
    section; the empty name does both. *)
Example setitem_default_section :
  configparser.setitem Py.ascii_lower "DEFAULT" [("y", "2")] example_config =
  ok {| _defaults := {["y" := "2"]}; _sections := _sections example_config |}.
Proof. vm_compute. reflexivity. Qed.

Example interpolation_syntax_examples :
  configparser.valid_interpolation "100%%" = true /\
  configparser.valid_interpolation "%(home)s\bin" = true /\
  configparser.valid_interpolation "%Personal%" = false /\
  configparser.valid_interpolation "%()s" = false /\
  configparser.valid_interpolation "50%" = false.
Proof. repeat split; reflexivity. Qed.

(** ** Files that the section syntax does not carry

    Two runs on the concrete platform that show what the provisos of the
    theorems on [create_sandbox] and [destroy_sandbox] are about. *)

(** A value with percent signs that is in the file already passes through
    [get_config] and [_write_config] unchanged: only [config[box] =
    options] checks the interpolation syntax. *)
Example destroy_sandbox_keeps_percent_value :
  files
    (snd (destroy_sandbox example_platform example_sandboxie "sandbox2"
            {| files :=
                 {[config_path example_sandboxie :=
                     "[sandbox1]" +:+ LF +:+
                     "OpenFilePath = %Personal%" +:+ LF +:+ LF +:+
                     "[sandbox2]" +:+ LF +:+ "enabled = no" +:+ LF +:+ LF]};
               unwritable := ∅;
               invocations := [] |}))
    !! config_path example_sandboxie =
  Some ("[sandbox1]" +:+ LF +:+ "openfilepath = %Personal%" +:+ LF +:+ LF).
Proof. vm_compute. reflexivity. Qed.

(** A sandbox name that closes the header line and opens another one is
    written as it is: the file does not read back as the config written,
    and the options land in the profile [sandbox2]. *)
Example create_sandbox_name_closing_header :
  exists config',
    fst (get_config example_platform example_sandboxie
           (snd (create_sandbox example_platform example_sandboxie
                   ("x]" +:+ LF +:+ "[sandbox2") [("Enabled", "maybe")]
                   example_world))) = ok config' /\
    _sections config' !! ("x]" +:+ LF +:+ "[sandbox2") = None /\
    _sections config' !! "sandbox2" = Some {["enabled" := "maybe"]}.
Proof.
  eexists. split; [vm_compute; reflexivity | ].
  split; vm_compute; reflexivity.
Qed.

(** * Further properties of the module *)

(** ** The shape of every command line *)

Lemma append_if_cons (x : string) (flag : bool) (token : string)
    (options : list string) :
  append_if flag token (x :: options) = x :: append_if flag token options.
Proof. destruct flag; reflexivity. Qed.

Lemma sublist_append_if (flag : bool) (token : string)
    (options allowed : list string) :
  sublist options allowed ->
  sublist (append_if flag token options) (allowed ++ [token]).
Proof.
  intros H. destruct flag; simpl.
  - apply sublist_app; [assumption | reflexivity].
  - apply sublist_inserts_r. assumption.
Qed.

(** The flags of steps 2 to 6, after the sandbox. *)
Lemma start_flags_sublist (self : Sandboxie) (a : StartArgs) :
  exists opts,
    start_flags self a =
      ("/box:" +:+ default (defaultbox self) (box a)) :: opts /\
    sublist opts ["/silent"; "/wait"; "/nosbiectrl"; "/elevate"; "/dfp"].
Proof.
  unfold start_flags.
  replace (match box a with None => defaultbox self | Some b => b end)
    with (default (defaultbox self) (box a)) by (destruct (box a); reflexivity).
  rewrite !append_if_cons. eexists. split; [reflexivity | ].
  change ["/silent"; "/wait"; "/nosbiectrl"; "/elevate"; "/dfp"]
    with ((((([] ++ ["/silent"]) ++ ["/wait"]) ++ ["/nosbiectrl"])
             ++ ["/elevate"]) ++ ["/dfp"]).
  repeat apply sublist_append_if. constructor.
Qed.

(** X1.  Whatever the arguments of [start], the argument list is the
    launcher path, then [/box:] with the sandbox given or else the default
    one, then flags, then the command; the flags are a selection of
    [/silent /wait /nosbiectrl /elevate /dfp /reload /terminate
    /terminate_all /listpids] in exactly that order, none twice. *)
Theorem start_argv_canonical_order
    (P : Platform) (self : Sandboxie) (a : StartArgs) :
  exists opts,
    start_argv P self a =
      os_path_join P (install_dir self) "Start.exe"
        :: ("/box:" +:+ default (defaultbox self) (box a))
        :: opts ++ [final_command a] /\
    sublist opts canonical_flags.
Proof.
  destruct (start_flags_sublist self a) as (opts & Hflags & Hsub).
  unfold start_argv, start_control, final_command. rewrite Hflags.
  destruct (command a) as [c | ].
  - exists opts. rewrite or_present. split; [reflexivity | ].
    apply (sublist_inserts_r
             ["/reload"; "/terminate"; "/terminate_all"; "/listpids"]) in Hsub.
    exact Hsub.
  - rewrite !append_if_cons.
    assert (sublist
              (append_if (listpids a) "/listpids"
                 (append_if (terminate_all a) "/terminate_all"
                    (append_if (terminate a) "/terminate"
                       (append_if (reload a) "/reload" opts))))
              canonical_flags) as Hall.
    { change canonical_flags
        with (((((["/silent"; "/wait"; "/nosbiectrl"; "/elevate"; "/dfp"]
                    ++ ["/reload"]) ++ ["/terminate"]) ++ ["/terminate_all"])
                ++ ["/listpids"])).
      repeat apply sublist_append_if. assumption. }
    destruct (listpids a); eexists; (split; [reflexivity | exact Hall]).
Qed.

(** ** Which flags are emitted *)

Lemma In_start_flags (self : Sandboxie) (a : StartArgs) (t : string) :
  In t (start_flags self a) <->
  t = "/box:" +:+ default (defaultbox self) (box a) \/
  (silent a = true /\ t = "/silent") \/
  (wait a = true /\ t = "/wait") \/
  (nosbiectrl a = true /\ t = "/nosbiectrl") \/
  (elevate a = true /\ t = "/elevate") \/
  (disable_forced a = true /\ t = "/dfp").
Proof.
  unfold start_flags. rewrite !In_append_if. simpl In.
  replace (match box a with None => defaultbox self | Some b => b end)
    with (default (defaultbox self) (box a)) by (destruct (box a); reflexivity).
  intuition congruence.
Qed.

Lemma In_start_argv (P : Platform) (self : Sandboxie) (a : StartArgs)
    (t : string) :
  In t (start_argv P self a) <->
  t = os_path_join P (install_dir self) "Start.exe" \/
  In t (start_flags self a) \/
  (command a = None /\
   ((reload a = true /\ t = "/reload") \/
    (terminate a = true /\ t = "/terminate") \/
    (terminate_all a = true /\ t = "/terminate_all") \/
    (listpids a = true /\ t = "/listpids"))) \/
  t = final_command a.
Proof.
  unfold start_argv, start_control, final_command.
  destruct (command a) as [c | ].
  - rewrite or_present. simpl In. rewrite in_app_iff. simpl In.
    intuition congruence.
  - destruct (listpids a); simpl In; rewrite !in_app_iff; simpl In;
      rewrite ?in_app_iff, !In_append_if; simpl In; intuition congruence.
Qed.

(** A path whose last component is [Start.exe] is not a flag. *)
Lemma start_exe_not_flag (prefix t : string) :
  In t canonical_flags -> t <> prefix +:+ "Start.exe".
Proof.
  unfold canonical_flags. simpl.
  intros [<- | [<- | [<- | [<- | [<- | [<- | [<- | [<- | [<- | []]]]]]]]]] H;
    symmetry in H; strip_prefix H.
Qed.

Lemma box_option_not_flag (name t : string) :
  In t canonical_flags -> t <> "/box:" +:+ name.
Proof.
  unfold canonical_flags. simpl.
  intros [<- | [<- | [<- | [<- | [<- | [<- | [<- | [<- | [<- | []]]]]]]]]];
    discriminate.
Qed.

(** For a flag token, membership in the argument list comes down to the
    emitted flags when the launcher path and the command are set apart. *)
Lemma In_start_argv_flag (P : Platform) (self : Sandboxie) (a : StartArgs)
    (t : string) :
  (forall dir, exists prefix,
      os_path_join P dir "Start.exe" = prefix +:+ "Start.exe") ->
  ~ In (final_command a) canonical_flags ->
  In t canonical_flags ->
  In t (start_argv P self a) <->
  (silent a = true /\ t = "/silent") \/
  (wait a = true /\ t = "/wait") \/
  (nosbiectrl a = true /\ t = "/nosbiectrl") \/
  (elevate a = true /\ t = "/elevate") \/
  (disable_forced a = true /\ t = "/dfp") \/
  (command a = None /\
   ((reload a = true /\ t = "/reload") \/
    (terminate a = true /\ t = "/terminate") \/
    (terminate_all a = true /\ t = "/terminate_all") \/
    (listpids a = true /\ t = "/listpids"))).
Proof.
  intros Hjoin Hcmd Ht. rewrite In_start_argv, In_start_flags.
  destruct (Hjoin (install_dir self)) as [prefix ->].
  pose proof (start_exe_not_flag prefix t Ht) as Hexe.
  pose proof (box_option_not_flag (default (defaultbox self) (box a)) t Ht)
    as Hbox.
  assert (t <> final_command a) as Hfin by (intros ->; contradiction).
  tauto.
Qed.

(** X2.  When the command is not itself spelled like a flag, each flag
    token is on the argument list exactly when its flag is set, and for
    the four control flags also only when there is no command: [/silent],
    [/wait], [/nosbiectrl], [/elevate] and [/dfp] follow their booleans
    alone; [/reload], [/terminate], [/terminate_all] and [/listpids] need
    [command] to be [None] as well. *)
Theorem start_emits_flag_iff_set
    (P : Platform) (self : Sandboxie) (a : StartArgs) :
  (forall dir, exists prefix,
      os_path_join P dir "Start.exe" = prefix +:+ "Start.exe") ->
  ~ In (final_command a) canonical_flags ->
  (In "/silent" (start_argv P self a) <-> silent a = true) /\
  (In "/wait" (start_argv P self a) <-> wait a = true) /\
  (In "/nosbiectrl" (start_argv P self a) <-> nosbiectrl a = true) /\
  (In "/elevate" (start_argv P self a) <-> elevate a = true) /\
  (In "/dfp" (start_argv P self a) <-> disable_forced a = true) /\
  (In "/reload" (start_argv P self a) <->
     command a = None /\ reload a = true) /\
  (In "/terminate" (start_argv P self a) <->
     command a = None /\ terminate a = true) /\
  (In "/terminate_all" (start_argv P self a) <->
     command a = None /\ terminate_all a = true) /\
  (In "/listpids" (start_argv P self a) <->
     command a = None /\ listpids a = true).
Proof.
  intros Hjoin Hcmd.
  assert (forall t, In t canonical_flags ->
            In t (start_argv P self a) <-> _) as Hiff
    by (intros t; apply (In_start_argv_flag P self a t Hjoin Hcmd)).
  repeat apply conj;
    (rewrite Hiff by (unfold canonical_flags; simpl; tauto));
    clear; intuition congruence.
Qed.

(** X2 at [start('test.exe', wait=True, reload=True)]: [/wait] is
    emitted, [/reload] is not. *)
Lemma start_emits_flag_iff_set_witness :
  In "/wait"
     (start_argv example_platform example_sandboxie
        {| command := Some "test.exe"; box := None; silent := true;
           wait := true; nosbiectrl := true; elevate := false;
           disable_forced := false; reload := true; terminate := false;
           terminate_all := false; listpids := false |}) /\
  ~ In "/reload"
     (start_argv example_platform example_sandboxie
        {| command := Some "test.exe"; box := None; silent := true;
           wait := true; nosbiectrl := true; elevate := false;
           disable_forced := false; reload := true; terminate := false;
           terminate_all := false; listpids := false |}).
Proof.
  destruct (start_emits_flag_iff_set example_platform example_sandboxie
              {| command := Some "test.exe"; box := None; silent := true;
                 wait := true; nosbiectrl := true; elevate := false;
                 disable_forced := false; reload := true; terminate := false;
                 terminate_all := false; listpids := false |})
    as (_ & Hwait & _ & _ & _ & Hreload & _).
  - intros dir. exists (dir +:+ "\"). reflexivity.
  - simpl. intuition discriminate.
  - split.
    + apply Hwait. reflexivity.
    + intros Hin. apply Hreload in Hin. destruct Hin as [Hc _]. discriminate.
Defined.

(** ** Keywords forwarded by the wrappers *)

Lemma bind_arg_given_twice {A} (keyword : string) (d : A)
    (given extra : option A) :
  given_twice given extra = true ->
  bind_arg keyword d given extra = raise (TypeError keyword).
Proof. destruct given, extra; (discriminate || reflexivity). Qed.

Lemma bind_arg_bound {A} (keyword : string) (d : A) (given extra : option A) :
  given_twice given extra = false ->
  bind_arg keyword d given extra = ok (bound_value d given extra).
Proof. destruct given, extra; (discriminate || reflexivity). Qed.

Ltac bind_next_keyword :=
  match goal with
  | |- context [bind_arg ?k ?d ?g ?e] =>
      destruct (given_twice g e) eqn:?;
      [ rewrite (bind_arg_given_twice k d g e) by assumption;
        intros _; eexists; reflexivity
      | rewrite (bind_arg_bound k d g e) by assumption;
        unfold rbind at 1, ok at 1 ]
  end.

(** A keyword given twice stops the call with [TypeError]. *)
Lemma bind_start_args_clash (given kwargs : Kwargs) :
  keyword_clash given kwargs = true ->
  exists keyword, bind_start_args given kwargs = raise (TypeError keyword).
Proof.
  unfold keyword_clash, bind_start_args.
  do 11 bind_next_keyword. discriminate.
Qed.

(** Without a clash every parameter is bound to the keyword given, or to
    its default. *)
Lemma bind_start_args_bound (given kwargs : Kwargs) :
  keyword_clash given kwargs = false ->
  bind_start_args given kwargs = ok (bound_args given kwargs).
Proof.
  unfold keyword_clash, bind_start_args. intros H.
  repeat (apply orb_false_iff in H; destruct H as [H ?]).
  repeat (rewrite bind_arg_bound by assumption; unfold rbind at 1, ok at 1).
  reflexivity.
Qed.

Lemma call_start_clash (P : Platform) (self : Sandboxie)
    (given kwargs : Kwargs) (w : World) :
  keyword_clash given kwargs = true ->
  exists keyword,
    call_start P self given kwargs w = (raise (TypeError keyword), w).
Proof.
  intros H. destruct (bind_start_args_clash given kwargs H) as [k Hk].
  exists k. unfold call_start, bind, lift. rewrite Hk. reflexivity.
Qed.

Lemma call_start_bound (P : Platform) (self : Sandboxie)
    (given kwargs : Kwargs) (w : World) :
  keyword_clash given kwargs = false ->
  call_start P self given kwargs w =
  (check_output P w (start_argv P self (bound_args given kwargs)),
   invoked (start_argv P self (bound_args given kwargs)) w).
Proof.
  intros H. unfold call_start, bind, lift.
  rewrite (bind_start_args_bound given kwargs H). reflexivity.
Qed.

Ltac solve_clash :=
  unfold keyword_clash; cbn;
  repeat match goal with
         | |- context [given_twice (Some _) ?o] => destruct o
         | |- context [match ?o with Some _ => _ | None => _ end] =>
             destruct o
         end;
  reflexivity.

Ltac wrapper_clash P self kwargs w :=
  match goal with
  | |- context [call_start P self ?given kwargs] =>
      let k := fresh "k" in
      let Hk := fresh "Hk" in
      destruct (call_start_clash P self given kwargs w) as [k Hk];
      [ destruct kwargs; cbn in *; subst; solve_clash
      | exists k; unfold bind; rewrite Hk; reflexivity ]
  end.

(** X3.  A wrapper called with a keyword that it already passes to
    [start] itself ([reload] for [reload_config], [terminate] for
    [terminate_processes], [terminate_all] for
    [terminate_all_processes], [command] for [delete_contents], [wait] or
    [listpids] for [running_processes]) raises [TypeError]; the launcher
    is not run and no file is touched. *)
Theorem wrappers_reject_keyword_given_twice
    (P : Platform) (self : Sandboxie) (b : option string) (kwargs : Kwargs)
    (w : World) :
  (is_Some (kw_reload kwargs) ->
   exists k, reload_config P self kwargs w = (raise (TypeError k), w)) /\
  (is_Some (kw_terminate kwargs) ->
   exists k,
     terminate_processes P self b kwargs w = (raise (TypeError k), w)) /\
  (is_Some (kw_terminate_all kwargs) ->
   exists k,
     terminate_all_processes P self kwargs w = (raise (TypeError k), w)) /\
  (is_Some (kw_command kwargs) ->
   exists k, delete_contents P self b kwargs w = (raise (TypeError k), w)) /\
  (is_Some (kw_wait kwargs) \/ is_Some (kw_listpids kwargs) ->
   exists k, running_processes P self b kwargs w = (raise (TypeError k), w)).
Proof.
  repeat apply conj.
  - intros [v Hv]. unfold reload_config. wrapper_clash P self kwargs w.
  - intros [v Hv]. unfold terminate_processes. wrapper_clash P self kwargs w.
  - intros [v Hv]. unfold terminate_all_processes.
    wrapper_clash P self kwargs w.
  - intros [v Hv]. unfold delete_contents. wrapper_clash P self kwargs w.
  - intros [[v Hv] | [v Hv]]; unfold running_processes;
      wrapper_clash P self kwargs w.
Qed.

(** X3 at [running_processes(wait=False)] and [reload_config(reload=True)]. *)
Lemma wrappers_reject_keyword_given_twice_witness :
  (exists k,
      running_processes example_platform example_sandboxie None
        {| kw_command := None; kw_box := None; kw_silent := None;
           kw_wait := Some false; kw_nosbiectrl := None; kw_elevate := None;
           kw_disable_forced := None; kw_reload := None;
           kw_terminate := None; kw_terminate_all := None;
           kw_listpids := None |} example_world =
      (raise (TypeError k), example_world)) /\
  (exists k,
      reload_config example_platform example_sandboxie reload_keywords
        example_world = (raise (TypeError k), example_world)).
Proof.
  split.
  - destruct (wrappers_reject_keyword_given_twice
                example_platform example_sandboxie None
                {| kw_command := None; kw_box := None; kw_silent := None;
                   kw_wait := Some false; kw_nosbiectrl := None;
                   kw_elevate := None; kw_disable_forced := None;
                   kw_reload := None; kw_terminate := None;
                   kw_terminate_all := None; kw_listpids := None |}
                example_world) as (_ & _ & _ & _ & H).
    apply H. left. eexists. reflexivity.
  - destruct (wrappers_reject_keyword_given_twice
                example_platform example_sandboxie None reload_keywords
                example_world) as (H & _).
    apply H. eexists. reflexivity.
Defined.

(** X4.  [terminate_processes(box)] runs the launcher once on
    [[Start.exe, /box:<box or the default>, /silent, /nosbiectrl,
    /terminate, '']] and [terminate_all_processes()] once on
    [[Start.exe, /box:<default>, /silent, /nosbiectrl, /terminate_all,
    '']]: the sandbox given is the one targeted, the command is the empty
    string, the launcher's output is dropped and its failure passed
    on. *)
Theorem terminate_wrappers_run_launcher_once
    (P : Platform) (self : Sandboxie) (b : option string) (w : World) :
  let exe := os_path_join P (install_dir self) "Start.exe" in
  let one :=
    [exe; "/box:" +:+ default (defaultbox self) b; "/silent"; "/nosbiectrl";
     "/terminate"; ""] in
  let all :=
    [exe; "/box:" +:+ defaultbox self; "/silent"; "/nosbiectrl";
     "/terminate_all"; ""] in
  terminate_processes P self b no_kwargs w =
    (discard_output (check_output P w one), invoked one w) /\
  terminate_all_processes P self no_kwargs w =
    (discard_output (check_output P w all), invoked all w).
Proof.
  intros exe one all. split.
  - unfold terminate_processes, bind.
    rewrite call_start_bound by reflexivity.
    replace (start_argv P self _) with one
      by (subst one exe; destruct b; reflexivity).
    destruct (check_output P w one); reflexivity.
  - unfold terminate_all_processes, bind.
    rewrite call_start_bound by reflexivity.
    change (start_argv P self _) with all.
    destruct (check_output P w all); reflexivity.
Qed.

(** X5.  A command forwarded through [reload_config] switches the reload
    off: [reload_config(command=c)] runs the launcher once, with [c] as
    the last argument and without [/reload]. *)
Theorem reload_config_with_command_does_not_reload
    (P : Platform) (self : Sandboxie) (kwargs : Kwargs) (w : World)
    (c : string) :
  kw_command kwargs = Some (Some c) ->
  kw_reload kwargs = None ->
  (forall dir, exists prefix,
      os_path_join P dir "Start.exe" = prefix +:+ "Start.exe") ->
  ~ In c canonical_flags ->
  exists argv,
    reload_config P self kwargs w =
      (discard_output (check_output P w argv), invoked argv w) /\
    last argv = Some c /\
    ~ In "/reload" argv.
Proof.
  intros Hc Hr Hjoin Hflag.
  assert (keyword_clash reload_keywords kwargs = false) as Hclash
    by (unfold keyword_clash; cbn; rewrite Hr; reflexivity).
  exists (start_argv P self (bound_args reload_keywords kwargs)).
  assert (command (bound_args reload_keywords kwargs) = Some c) as Hcmd
    by (cbn; rewrite Hc; reflexivity).
  split; [ | split].
  - unfold reload_config, bind.
    change (call_start P self _ kwargs w)
      with (call_start P self reload_keywords kwargs w).
    rewrite (call_start_bound P self reload_keywords kwargs w Hclash).
    destruct (check_output P w _); reflexivity.
  - rewrite (start_argv_command P self _ c Hcmd), app_comm_cons.
    apply last_snoc.
  - intros Hin.
    apply (In_start_argv_flag P self _ "/reload" Hjoin) in Hin.
    + rewrite Hcmd in Hin. intuition discriminate.
    + unfold final_command. rewrite Hcmd. assumption.
    + unfold canonical_flags. simpl. tauto.
Qed.

(** X5 at [reload_config(command='test.exe')]. *)
Lemma reload_config_with_command_does_not_reload_witness :
  exists argv,
    reload_config example_platform example_sandboxie (positional "test.exe")
      example_world =
      (discard_output (check_output example_platform example_world argv),
       invoked argv example_world) /\
    last argv = Some "test.exe" /\
    ~ In "/reload" argv.
Proof.
  apply (reload_config_with_command_does_not_reload
           example_platform example_sandboxie (positional "test.exe")
           example_world "test.exe").
  - reflexivity.
  - reflexivity.
  - intros dir. exists (dir +:+ "\"). reflexivity.
  - simpl. intuition discriminate.
Defined.

(** X6.  Two [reload_config()] calls in a row, the first of which
    succeeds, run the launcher twice on the same argument list and touch
    no file; the outcome is that of the second run, which the launcher
    makes in a world that differs only by the record of the first. *)
Theorem reload_config_twice
    (P : Platform) (self : Sandboxie) (w : World) (output : string) :
  let argv := start_argv P self reload_args in
  check_output P w argv = ok output ->
  (_ <- reload_config P self no_kwargs ;; reload_config P self no_kwargs)%M w =
  (discard_output (check_output P (invoked argv w) argv),
   {| files := files w; unwritable := unwritable w;
      invocations := invocations w ++ [argv; argv] |}).
Proof.
  intros argv Hout. unfold bind at 1.
  rewrite reload_config_world. fold argv. rewrite Hout.
  unfold discard_output at 1, ok at 1. cbv beta iota.
  rewrite reload_config_world. fold argv. unfold invoked.
  cbn [files unwritable invocations].
  rewrite <- app_assoc. reflexivity.
Qed.

(** X6 on the example platform. *)
Lemma reload_config_twice_witness :
  (_ <- reload_config example_platform example_sandboxie no_kwargs ;;
   reload_config example_platform example_sandboxie no_kwargs)%M
    example_world =
  (ok tt,
   {| files := files example_world; unwritable := ∅;
      invocations :=
        [start_argv example_platform example_sandboxie reload_args;
         start_argv example_platform example_sandboxie reload_args] |}).
Proof.
  rewrite (reload_config_twice example_platform example_sandboxie
             example_world "" eq_refl).
  reflexivity.
Defined.

(** ** Options the parser refuses, and the DEFAULT section *)

Section Refusing.

Context (lower : string -> string).

Lemma set_refuses (section key value : string) (config : ConfigParser) :
  configparser.valid_interpolation value = false ->
  configparser.set_ lower section key value config = raise (ValueError value).
Proof.
  intros Hv. unfold configparser.set_. destruct value as [ | c value'].
  - discriminate Hv.
  - unfold configparser.before_set. rewrite Hv. reflexivity.
Qed.

Lemma set_accepts (section key value : string) (config : ConfigParser) :
  section = "" \/ section = configparser.default_section \/
  is_Some (_sections config !! section) ->
  configparser.valid_interpolation value = true ->
  exists config',
    configparser.set_ lower section key value config = ok config' /\
    (section = "" \/ section = configparser.default_section \/
     is_Some (_sections config' !! section)).
Proof.
  intros Haddr Hv. unfold configparser.set_.
  assert (match value with
          | EmptyString => ok value
          | _ => configparser.before_set value
          end = ok value) as ->.
  { destruct value; [reflexivity | ].
    unfold configparser.before_set. rewrite Hv. reflexivity. }
  unfold rbind, ok at 1.
  destruct (bool_decide (section = "") ||
            bool_decide (section = configparser.default_section)) eqn:Hd.
  - eexists. split; [reflexivity | ].
    apply orb_true_iff in Hd. destruct Hd as [Hd | Hd];
      apply bool_decide_eq_true_1 in Hd; tauto.
  - apply orb_false_iff in Hd. destruct Hd as [Hd1 Hd2].
    apply bool_decide_eq_false_1 in Hd1, Hd2.
    destruct Haddr as [? | [? | [old Hold]]]; [contradiction .. | ].
    rewrite Hold. eexists. split; [reflexivity | ].
    right. right. cbn. rewrite lookup_insert_eq. eauto.
Qed.

Lemma read_items_after_raise (section : string)
    (items : list (string * string)) (e : exn) :
  fold_left
    (fun r '(key, value) =>
       rbind r (fun config =>
                  configparser.set_ lower section
                    (configparser.optionxform lower key) value config))
    items (raise e) = raise e.
Proof.
  induction items as [ | [key value] items IH]; [reflexivity | ].
  cbn [fold_left]. exact IH.
Qed.

(** The items are set in turn: those before the first refused value are
    stored, and the refusal of that value ends the reading, whatever
    follows it. *)
Lemma read_items_first_refused (section : string)
    (pre post : list (string * string)) (key value : string)
    (config : ConfigParser) :
  section = "" \/ section = configparser.default_section \/
  is_Some (_sections config !! section) ->
  Forall (fun item => configparser.valid_interpolation (snd item) = true)
         pre ->
  configparser.valid_interpolation value = false ->
  fold_left
    (fun r '(key, value) =>
       rbind r (fun config =>
                  configparser.set_ lower section
                    (configparser.optionxform lower key) value config))
    (pre ++ (key, value) :: post) (ok config) = raise (ValueError value).
Proof.
  intros Haddr Hpre Hv. revert config Haddr.
  induction Hpre as [ | [k v] pre Hkv _ IH]; intros config Haddr.
  - cbn [app fold_left]. unfold rbind at 2, ok at 1.
    rewrite (set_refuses _ _ value config Hv). apply read_items_after_raise.
  - cbn [app fold_left]. unfold rbind at 2, ok at 1.
    destruct (set_accepts section (configparser.optionxform lower k) v
                config Haddr Hkv) as (config' & -> & Haddr').
    apply IH. exact Haddr'.
Qed.

(** [config[name] = options] raises [ValueError] on the first value of
    invalid interpolation syntax, for any section name. *)
Lemma setitem_first_refused (name : string)
    (pre post : list (string * string)) (key value : string)
    (config : ConfigParser) :
  Forall (fun item => configparser.valid_interpolation (snd item) = true)
         pre ->
  configparser.valid_interpolation value = false ->
  configparser.setitem lower name (pre ++ (key, value) :: post) config =
  raise (ValueError value).
Proof.
  intros Hpre Hv. unfold configparser.setitem, configparser.read_dict.
  apply read_items_first_refused; [ | assumption | assumption].
  unfold configparser.add_section.
  destruct (bool_decide (name = configparser.default_section)) eqn:Hd.
  - apply bool_decide_eq_true_1 in Hd. tauto.
  - right. right. cbn.
    destruct (_sections config !! name) as [old | ] eqn:Hold; cbn.
    + rewrite lookup_insert_eq. cbn. rewrite lookup_insert_eq. eauto.
    + rewrite Hold. cbn. rewrite lookup_insert_eq. eauto.
Qed.

Lemma read_items_in_defaults (items : list (string * string))
    (d : gmap string string) (S : gmap string (gmap string string)) :
  Forall (fun item => configparser.valid_interpolation (snd item) = true)
         items ->
  fold_left
    (fun r '(key, value) =>
       rbind r (fun config =>
                  configparser.set_ lower configparser.default_section
                    (configparser.optionxform lower key) value config))
    items (ok {| _defaults := d; _sections := S |}) =
  ok {| _defaults :=
          fold_left
            (fun m '(key, value) =>
               <[configparser.optionxform lower
                   (configparser.optionxform lower key) := value]> m)
            items d;
        _sections := S |}.
Proof.
  intros Hvalid. revert d.
  induction Hvalid as [ | [key value] items Hv _ IH]; intros d.
  - reflexivity.
  - cbn [fold_left]. unfold rbind at 2, ok at 1.
    assert (configparser.set_ lower configparser.default_section
              (configparser.optionxform lower key) value
              {| _defaults := d; _sections := S |} =
            ok {| _defaults :=
                    <[configparser.optionxform lower
                        (configparser.optionxform lower key) := value]> d;
                  _sections := S |}) as ->.
    { unfold configparser.set_.
      assert (match value with
              | EmptyString => ok value
              | _ => configparser.before_set value
              end = ok value) as ->.
      { destruct value; [reflexivity | ].
        unfold configparser.before_set. simpl in Hv. rewrite Hv.
        reflexivity. }
      unfold rbind, ok at 1. cbn. reflexivity. }
    apply IH.
Qed.

(** [config['DEFAULT'] = options] replaces the defaults and adds no
    section. *)
Lemma setitem_defaults (options : list (string * string))
    (config : ConfigParser) :
  Forall (fun item => configparser.valid_interpolation (snd item) = true)
         options ->
  configparser.setitem lower "DEFAULT" options config =
  ok (with_defaults (stored_options lower options) config).
Proof.
  intros Hvalid. destruct config as [d S].
  unfold configparser.setitem, configparser.read_dict, configparser.add_section.
  cbn. apply (read_items_in_defaults options ∅ S Hvalid).
Qed.

End Refusing.

(** ** What creating and destroying a sandbox do to the world *)

Lemma create_sandbox_world (P : Platform) (self : Sandboxie) (w : World)
    (config : ConfigParser) (name : string)
    (options : list (string * string)) :
  fst (get_config P self w) = ok config ->
  name <> "" -> name <> "DEFAULT" ->
  Forall (fun item => configparser.valid_interpolation (snd item) = true)
         options ->
  config_path self ∉ unwritable w ->
  create_sandbox P self name options w =
  (discard_output
     (check_output P
        (written self
           (write P (with_section name (stored_options (str_lower P) options)
                       config)) w)
        (start_argv P self reload_args)),
   invoked (start_argv P self reload_args)
     (written self
        (write P (with_section name (stored_options (str_lower P) options)
                    config)) w)).
Proof.
  intros Hget Hne Hnd Hvalid Hw. unfold create_sandbox.
  apply (edit_then_reload P self w config _ _ Hget
           (setitem_section (str_lower P) name options config Hne Hnd Hvalid)
           Hw).
Qed.

Lemma destroy_sandbox_world (P : Platform) (self : Sandboxie) (w : World)
    (config : ConfigParser) (name : string) :
  fst (get_config P self w) = ok config ->
  config_path self ∉ unwritable w ->
  destroy_sandbox P self name w =
  (discard_output
     (check_output P
        (written self
           (write P (snd (configparser.remove_section name config))) w)
        (start_argv P self reload_args)),
   invoked (start_argv P self reload_args)
     (written self (write P (snd (configparser.remove_section name config)))
        w)).
Proof.
  intros Hget Hw.
  exact (edit_then_reload P self w config
           (snd (configparser.remove_section name config))
           (fun c => ok (snd (configparser.remove_section name c)))
           Hget eq_refl Hw).
Qed.

Lemma get_config_written (P : Platform) (self : Sandboxie) (w : World)
    (argv : list string) (config : ConfigParser) :
  reads_back P config ->
  fst (get_config P self (invoked argv (written self (write P config) w))) =
  ok config.
Proof.
  intros H. apply (get_config_after_write P self (invoked argv w) config H).
Qed.

Lemma remove_added_section (name : string) (options : gmap string string)
    (config : ConfigParser) :
  _sections config !! name = None ->
  snd (configparser.remove_section name (with_section name options config)) =
  config.
Proof.
  intros Habs. unfold configparser.remove_section, with_section. cbn.
  rewrite lookup_insert_eq. cbn. rewrite delete_insert_id by assumption.
  destruct config; reflexivity.
Qed.

(** Writing the text the file already holds changes nothing. *)
Lemma written_again (self : Sandboxie) (text : string) (argv : list string)
    (w : World) :
  written self text (invoked argv (written self text w)) =
  invoked argv (written self text w).
Proof.
  unfold written, invoked. cbn. rewrite insert_insert_eq. reflexivity.
Qed.

(** X7.  [create_sandbox(name, options)] on a readable config, for a
    proper section name and accepted options.  When the config file can be
    opened for writing, it is rewritten first, with the profile set, and
    then the launcher is run exactly once, for the reload, in the world
    that holds the rewritten file; no other file changes, the outcome of
    the call is the outcome of that run, and the file has been rewritten
    also when the run fails.  When the file cannot be opened for writing,
    the call raises [IOError], nothing is written and the launcher is not
    run.  (An error of the device while the text is written is outside
    the model.) *)
Theorem create_sandbox_writes_then_reloads
    (P : Platform) (self : Sandboxie) (w : World) (config : ConfigParser)
    (name : string) (options : list (string * string)) :
  fst (get_config P self w) = ok config ->
  name <> "" -> name <> "DEFAULT" ->
  Forall (fun item => configparser.valid_interpolation (snd item) = true)
         options ->
  let text :=
    write P (with_section name (stored_options (str_lower P) options) config) in
  let argv := start_argv P self reload_args in
  (config_path self ∉ unwritable w ->
   exists w1,
     files w1 = <[config_path self := text]> (files w) /\
     unwritable w1 = unwritable w /\
     invocations w1 = invocations w /\
     create_sandbox P self name options w =
       (discard_output (check_output P w1 argv),
        {| files := files w1; unwritable := unwritable w1;
           invocations := invocations w ++ [argv] |})) /\
  (config_path self ∈ unwritable w ->
   create_sandbox P self name options w =
     (raise (IOError (config_path self)), w)).
Proof.
  intros Hget Hne Hnd Hvalid text argv. split; intros Hw.
  - exists (written self text w).
    split; [reflexivity | split; [reflexivity | split; [reflexivity | ] ] ].
    apply (create_sandbox_world P self w config name options);
      assumption.
  - unfold create_sandbox.
    apply (edit_then_refused P self w config _ _ Hget
             (setitem_section (str_lower P) name options config
                Hne Hnd Hvalid) Hw).
Qed.

(** X7 at [create_sandbox('foo', {'Enabled': 'yes'})], on the config of
    the unit tests and on the same config in a file that cannot be opened
    for writing. *)
Lemma create_sandbox_writes_then_reloads_witness :
  (exists w1,
      files w1 =
        <[config_path example_sandboxie :=
            ini_write
              (with_section "foo"
                 (stored_options Py.ascii_lower [("Enabled", "yes")])
                 example_config)]> (files example_world) /\
      unwritable w1 = unwritable example_world /\
      invocations w1 = invocations example_world /\
      create_sandbox example_platform example_sandboxie "foo"
        [("Enabled", "yes")] example_world =
        (discard_output
           (check_output example_platform w1
              (start_argv example_platform example_sandboxie reload_args)),
         {| files := files w1; unwritable := unwritable w1;
            invocations :=
              invocations example_world ++
              [start_argv example_platform example_sandboxie reload_args] |})) /\
  create_sandbox example_platform example_sandboxie "foo"
    [("Enabled", "yes")]
    {| files := files example_world;
       unwritable := {[config_path example_sandboxie]};
       invocations := [] |} =
  (raise (IOError (config_path example_sandboxie)),
   {| files := files example_world;
      unwritable := {[config_path example_sandboxie]};
      invocations := [] |}).
Proof.
  split.
  - destruct (create_sandbox_writes_then_reloads
                example_platform example_sandboxie example_world
                example_config "foo" [("Enabled", "yes")]) as [H _].
    + vm_compute. reflexivity.
    + discriminate.
    + discriminate.
    + repeat constructor.
    + apply H. apply not_elem_of_empty.
  - destruct (create_sandbox_writes_then_reloads
                example_platform example_sandboxie
                {| files := files example_world;
                   unwritable := {[config_path example_sandboxie]};
                   invocations := [] |}
                example_config "foo" [("Enabled", "yes")]) as [_ H].
    + vm_compute. reflexivity.
    + discriminate.
    + discriminate.
    + repeat constructor.
    + apply H. vm_compute. reflexivity.
Defined.

(** X8.  On a readable config, [create_sandbox] with options of which
    some value has invalid interpolation syntax (a percent sign that
    neither is doubled nor opens [%(name)s]) raises [ValueError] for the
    first such value in the order of the options, whatever the section
    name and whatever follows that value; the config file is not rewritten
    and the launcher is not run. *)
Theorem create_sandbox_refused_changes_nothing
    (P : Platform) (self : Sandboxie) (w : World) (config : ConfigParser)
    (name : string) (pre post : list (string * string))
    (key value : string) :
  fst (get_config P self w) = ok config ->
  Forall (fun item => configparser.valid_interpolation (snd item) = true)
         pre ->
  configparser.valid_interpolation value = false ->
  create_sandbox P self name (pre ++ (key, value) :: post) w =
  (raise (ValueError value), w).
Proof.
  intros Hget Hpre Hv. unfold create_sandbox.
  apply (edit_raises_then_no_reload P self w config _ _ Hget
           (setitem_first_refused (str_lower P) name pre post key value
              config Hpre Hv)).
Qed.

(** X8 at [create_sandbox('foo', {'Enabled': 'yes', 'Path': '50%',
    'Other': '%x'})]: the error names [50%], not [%x]. *)
Lemma create_sandbox_refused_changes_nothing_witness :
  create_sandbox example_platform example_sandboxie "foo"
    [("Enabled", "yes"); ("Path", "50%"); ("Other", "%x")] example_world =
  (raise (ValueError "50%"), example_world).
Proof.
  apply (create_sandbox_refused_changes_nothing
           example_platform example_sandboxie example_world example_config
           "foo" [("Enabled", "yes")] [("Other", "%x")] "Path" "50%").
  - vm_compute. reflexivity.
  - repeat constructor.
  - reflexivity.
Defined.

(** X9.  When the config cannot be read (the file is missing, or the
    parser raises), the block of [_modify_config] is not run, and
    [create_sandbox] and [destroy_sandbox] raise the same exception
    without writing the file or running the launcher; a missing file is
    an [IOError]. *)
Theorem unreadable_config_changes_nothing
    (P : Platform) (self : Sandboxie) (w : World) (e : exn) :
  fst (get_config P self w) = raise e ->
  (files w !! config_path self = None -> e = IOError (config_path self)) /\
  (forall block, _modify_config P self block w = (raise e, w)) /\
  (forall name options,
      create_sandbox P self name options w = (raise e, w)) /\
  (forall name, destroy_sandbox P self name w = (raise e, w)).
Proof.
  intros Hget.
  assert (get_config P self w = (raise e, w)) as Hfull.
  { pose proof (get_config_world P self w) as Hw.
    destruct (get_config P self w) as [r w0]. simpl in *. congruence. }
  assert (forall block, _modify_config P self block w = (raise e, w)) as Hmod.
  { intros block. unfold _modify_config, bind at 1. rewrite Hfull.
    reflexivity. }
  split; [ | split; [exact Hmod | split] ].
  - intros Hmissing. unfold get_config, bind, _open_config_file in Hget.
    rewrite Hmissing in Hget. simpl in Hget.
    unfold raise in Hget. congruence.
  - intros name options. unfold create_sandbox, bind at 1.
    rewrite Hmod. reflexivity.
  - intros name. unfold destroy_sandbox, bind at 1.
    rewrite Hmod. reflexivity.
Qed.

(** X9 in a world without any file. *)
Lemma unreadable_config_changes_nothing_witness :
  destroy_sandbox example_platform example_sandboxie "sandbox1"
    {| files := ∅; unwritable := ∅; invocations := [] |} =
  (raise (IOError (config_path example_sandboxie)),
   {| files := ∅; unwritable := ∅; invocations := [] |}).
Proof.
  apply (unreadable_config_changes_nothing
           example_platform example_sandboxie
           {| files := ∅; unwritable := ∅; invocations := [] |}
           (IOError (config_path example_sandboxie))).
  reflexivity.
Defined.

(** X10.  [destroy_sandbox(name)] on a readable config.  When the config
    file can be opened for writing, it is rewritten first, without the
    section (also when the section was not there), and then the launcher
    is run exactly once, for the reload, in the world that holds the
    rewritten file; no other file changes, and the outcome of the call is
    the outcome of that run.  When the file cannot be opened for writing,
    the call raises [IOError], nothing is written and the launcher is not
    run.  (An error of the device while the text is written is outside
    the model.) *)
Theorem destroy_sandbox_writes_then_reloads
    (P : Platform) (self : Sandboxie) (w : World) (config : ConfigParser)
    (name : string) :
  fst (get_config P self w) = ok config ->
  let text :=
    write P {| _defaults := _defaults config;
               _sections := delete name (_sections config) |} in
  let argv := start_argv P self reload_args in
  (config_path self ∉ unwritable w ->
   exists w1,
     files w1 = <[config_path self := text]> (files w) /\
     unwritable w1 = unwritable w /\
     invocations w1 = invocations w /\
     destroy_sandbox P self name w =
       (discard_output (check_output P w1 argv),
        {| files := files w1; unwritable := unwritable w1;
           invocations := invocations w ++ [argv] |})) /\
  (config_path self ∈ unwritable w ->
   destroy_sandbox P self name w = (raise (IOError (config_path self)), w)).
Proof.
  intros Hget text argv.
  assert (snd (configparser.remove_section name config) =
          {| _defaults := _defaults config;
             _sections := delete name (_sections config) |}) as Hrem.
  { destruct (remove_section_sections name config) as [Hs Hd].
    destruct (snd (configparser.remove_section name config)) as [d S].
    cbn in *. congruence. }
  split; intros Hw.
  - exists (written self text w).
    split; [reflexivity | split; [reflexivity | split; [reflexivity | ] ] ].
    rewrite (destroy_sandbox_world P self w config name Hget Hw).
    rewrite Hrem. reflexivity.
  - exact (edit_then_refused P self w config
             (snd (configparser.remove_section name config))
             (fun c => ok (snd (configparser.remove_section name c)))
             Hget eq_refl Hw).
Qed.

(** X10 at [destroy_sandbox('nobox')], a section that is not there. *)
Lemma destroy_sandbox_writes_then_reloads_witness :
  exists w1,
    files w1 =
      <[config_path example_sandboxie :=
          ini_write
            {| _defaults := _defaults example_config;
               _sections := delete "nobox" (_sections example_config) |}]>
        (files example_world) /\
    unwritable w1 = unwritable example_world /\
    invocations w1 = invocations example_world /\
    destroy_sandbox example_platform example_sandboxie "nobox" example_world =
      (discard_output
         (check_output example_platform w1
            (start_argv example_platform example_sandboxie reload_args)),
       {| files := files w1; unwritable := unwritable w1;
          invocations :=
            invocations example_world ++
            [start_argv example_platform example_sandboxie reload_args] |}).
Proof.
  destruct (destroy_sandbox_writes_then_reloads
              example_platform example_sandboxie example_world example_config
              "nobox") as [H _].
  - vm_compute. reflexivity.
  - apply H. apply not_elem_of_empty.
Defined.

(** X11.  Creating a sandbox under a name the config does not have and
    then destroying it leaves the config file as the writer prints the
    original config, after two reloads: the round trip loses nothing and
    adds nothing.  (The file can be opened for writing, and the file
    written by the creation has to read back as written.) *)
Theorem create_then_destroy_restores_config
    (P : Platform) (self : Sandboxie) (w : World) (config : ConfigParser)
    (name : string) (options : list (string * string)) :
  fst (get_config P self w) = ok config ->
  name <> "" -> name <> "DEFAULT" ->
  Forall (fun item => configparser.valid_interpolation (snd item) = true)
         options ->
  _sections config !! name = None ->
  config_path self ∉ unwritable w ->
  reads_back P
    (with_section name (stored_options (str_lower P) options) config) ->
  let w1 := snd (create_sandbox P self name options w) in
  let w2 := snd (destroy_sandbox P self name w1) in
  files w2 = <[config_path self := write P config]> (files w) /\
  invocations w2 =
    invocations w ++
    [start_argv P self reload_args; start_argv P self reload_args].
Proof.
  intros Hget Hne Hnd Hvalid Hfresh Hw Hback w1 w2. subst w2 w1.
  rewrite (create_sandbox_world P self w config name options
             Hget Hne Hnd Hvalid Hw).
  cbn [snd].
  rewrite (destroy_sandbox_world P self _
             (with_section name (stored_options (str_lower P) options) config)
             name (get_config_written P self w _ _ Hback) Hw).
  cbn [snd]. rewrite (remove_added_section name _ config Hfresh).
  cbn. rewrite insert_insert_eq, <- app_assoc. split; reflexivity.
Qed.

(** X11 at [create_sandbox('foo', {'Enabled': 'yes'})] followed by
    [destroy_sandbox('foo')]. *)
Lemma create_then_destroy_restores_config_witness :
  files
    (snd (destroy_sandbox example_platform example_sandboxie "foo"
            (snd (create_sandbox example_platform example_sandboxie "foo"
                    [("Enabled", "yes")] example_world)))) =
  <[config_path example_sandboxie := ini_write example_config]>
    (files example_world).
Proof.
  apply (create_then_destroy_restores_config
           example_platform example_sandboxie example_world example_config
           "foo" [("Enabled", "yes")]).
  - vm_compute. reflexivity.
  - discriminate.
  - discriminate.
  - repeat constructor.
  - vm_compute. reflexivity.
  - apply not_elem_of_empty.
  - vm_compute. reflexivity.
Defined.

(** X12.  Destroying the same sandbox twice: the second call finds no
    such section and rewrites the file with the very text the first call
    wrote, so that it changes no file; it runs the launcher once more, and
    its outcome is the outcome of that run.  (The file can be opened for
    writing, and the file written by the first call has to read back as
    written.) *)
Theorem destroy_sandbox_twice
    (P : Platform) (self : Sandboxie) (w : World) (config : ConfigParser)
    (name : string) :
  fst (get_config P self w) = ok config ->
  reads_back P (snd (configparser.remove_section name config)) ->
  config_path self ∉ unwritable w ->
  let argv := start_argv P self reload_args in
  let w1 := snd (destroy_sandbox P self name w) in
  destroy_sandbox P self name w1 =
  (discard_output (check_output P w1 argv),
   {| files := files w1; unwritable := unwritable w1;
      invocations := invocations w1 ++ [argv] |}).
Proof.
  intros Hget Hback Hw argv w1. subst w1.
  rewrite (destroy_sandbox_world P self w config name Hget Hw). cbn [snd].
  rewrite (destroy_sandbox_world P self _
             (snd (configparser.remove_section name config)) name
             (get_config_written P self w _ _ Hback) Hw).
  assert (snd (configparser.remove_section name
                 (snd (configparser.remove_section name config))) =
          snd (configparser.remove_section name config)) as ->.
  { rewrite (remove_section_absent name
               (snd (configparser.remove_section name config))).
    - reflexivity.
    - destruct (remove_section_sections name config) as [-> _].
      apply lookup_delete_eq. }
  fold argv. rewrite written_again. reflexivity.
Qed.

(** X12 at [destroy_sandbox('sandbox1')], twice. *)
Lemma destroy_sandbox_twice_witness :
  files
    (snd (destroy_sandbox example_platform example_sandboxie "sandbox1"
            (snd (destroy_sandbox example_platform example_sandboxie
                    "sandbox1" example_world)))) =
  files
    (snd (destroy_sandbox example_platform example_sandboxie "sandbox1"
            example_world)).
Proof.
  pose proof (destroy_sandbox_twice
                example_platform example_sandboxie example_world
                example_config "sandbox1") as H.
  cbv zeta in H. rewrite H.
  - reflexivity.
  - vm_compute. reflexivity.
  - vm_compute. reflexivity.
  - apply not_elem_of_empty.
Defined.

Lemma with_section_again (name : string) (first second : gmap string string)
    (config : ConfigParser) :
  with_section name second (with_section name first config) =
  with_section name second config.
Proof. unfold with_section. cbn. rewrite insert_insert_eq. reflexivity. Qed.

(** X13.  Creating a sandbox again under the same name replaces the whole
    profile: after [create_sandbox(name, first)] and
    [create_sandbox(name, second)] the files are what
    [create_sandbox(name, second)] alone leaves; no option of [first]
    survives.  (The file can be opened for writing, and the file written
    by the first call has to read back as written.) *)
Theorem create_sandbox_again_replaces_profile
    (P : Platform) (self : Sandboxie) (w : World) (config : ConfigParser)
    (name : string) (first second : list (string * string)) :
  fst (get_config P self w) = ok config ->
  name <> "" -> name <> "DEFAULT" ->
  Forall (fun item => configparser.valid_interpolation (snd item) = true)
         first ->
  Forall (fun item => configparser.valid_interpolation (snd item) = true)
         second ->
  config_path self ∉ unwritable w ->
  reads_back P
    (with_section name (stored_options (str_lower P) first) config) ->
  files (snd (create_sandbox P self name second
                (snd (create_sandbox P self name first w)))) =
  files (snd (create_sandbox P self name second w)).
Proof.
  intros Hget Hne Hnd Hfirst Hsecond Hw Hback.
  rewrite (create_sandbox_world P self w config name first
             Hget Hne Hnd Hfirst Hw).
  cbn [snd].
  rewrite (create_sandbox_world P self _
             (with_section name (stored_options (str_lower P) first) config)
             name second
             (get_config_written P self w _ _ Hback) Hne Hnd Hsecond Hw).
  rewrite (create_sandbox_world P self w config name second
             Hget Hne Hnd Hsecond Hw).
  cbn. rewrite !insert_insert_eq, with_section_again. reflexivity.
Qed.

(** X13 at [create_sandbox('foo', {'Enabled': 'yes', 'AutoDelete': 'y'})]
    followed by [create_sandbox('foo', {'Enabled': 'no'})]. *)
Lemma create_sandbox_again_replaces_profile_witness :
  files
    (snd (create_sandbox example_platform example_sandboxie "foo"
            [("Enabled", "no")]
            (snd (create_sandbox example_platform example_sandboxie "foo"
                    [("Enabled", "yes"); ("AutoDelete", "y")]
                    example_world)))) =
  files
    (snd (create_sandbox example_platform example_sandboxie "foo"
            [("Enabled", "no")] example_world)).
Proof.
  apply (create_sandbox_again_replaces_profile
           example_platform example_sandboxie example_world example_config
           "foo" [("Enabled", "yes"); ("AutoDelete", "y")]
           [("Enabled", "no")]).
  - vm_compute. reflexivity.
  - discriminate.
  - discriminate.
  - repeat constructor.
  - repeat constructor.
  - apply not_elem_of_empty.
  - vm_compute. reflexivity.
Defined.

(** X14.  [create_sandbox('DEFAULT', options)] creates no profile: the
    file written has the same sections as before, and the options become
    the defaults that every section inherits, replacing the former
    defaults.  (The file can be opened for writing.) *)
Theorem create_sandbox_DEFAULT_sets_defaults
    (P : Platform) (self : Sandboxie) (w : World) (config : ConfigParser)
    (options : list (string * string)) :
  fst (get_config P self w) = ok config ->
  Forall (fun item => configparser.valid_interpolation (snd item) = true)
         options ->
  config_path self ∉ unwritable w ->
  files (snd (create_sandbox P self "DEFAULT" options w)) !! config_path self =
  Some (write P {| _defaults := stored_options (str_lower P) options;
                   _sections := _sections config |}).
Proof.
  intros Hget Hvalid Hw. unfold create_sandbox.
  rewrite (edit_then_reload P self w config _ _ Hget
             (setitem_defaults (str_lower P) options config Hvalid) Hw).
  cbn. apply lookup_insert_eq.
Qed.

(** X14 at [create_sandbox('DEFAULT', {'Enabled': 'yes'})]. *)
Lemma create_sandbox_DEFAULT_sets_defaults_witness :
  files
    (snd (create_sandbox example_platform example_sandboxie "DEFAULT"
            [("Enabled", "yes")] example_world))
    !! config_path example_sandboxie =
  Some ("[DEFAULT]" +:+ LF +:+ "enabled = yes" +:+ LF +:+ LF +:+
        ini_write example_config).
Proof.
  rewrite (create_sandbox_DEFAULT_sets_defaults
             example_platform example_sandboxie example_world example_config
             [("Enabled", "yes")]).
  - vm_compute. reflexivity.
  - vm_compute. reflexivity.
  - repeat constructor.
  - apply not_elem_of_empty.
Defined.

(** ** More on the pid parser *)

Lemma append_cons (c : ascii) (s t : string) :
  String c s +:+ t = String c (s +:+ t).
Proof. reflexivity. Qed.

Lemma append_empty_l (t : string) : EmptyString +:+ t = t.
Proof. reflexivity. Qed.

Lemma append_snoc (s t : string) (c : ascii) :
  (s +:+ String c EmptyString) +:+ t = s +:+ String c t.
Proof.
  induction s as [ | c' s IH].
  - reflexivity.
  - rewrite !append_cons, IH. reflexivity.
Qed.

Lemma append_empty_r (s : string) : s +:+ EmptyString = s.
Proof.
  induction s as [ | c s IH]; [reflexivity | ].
  rewrite append_cons, IH. reflexivity.
Qed.

(** A run without whitespace is read into the token under way. *)
Lemma split_from_run (t cur rest : string) :
  nospace t = true ->
  Py.split_from cur (t +:+ rest) = Py.split_from (cur +:+ t) rest.
Proof.
  revert cur. induction t as [ | c t IH]; intros cur Ht.
  - rewrite append_empty_l, append_empty_r. reflexivity.
  - simpl in Ht. apply andb_true_iff in Ht. destruct Ht as [Hc Ht].
    apply negb_true_iff in Hc. rewrite append_cons.
    cbn [Py.split_from]. rewrite Hc, (IH _ Ht), append_snoc.
    reflexivity.
Qed.

(** A line end closes the token under way. *)
Lemma split_from_CRLF (c : ascii) (cur rest : string) :
  Py.split_from (String c cur) (CRLF +:+ rest) =
  String c cur :: Py.split_from EmptyString rest.
Proof. reflexivity. Qed.

Lemma split_from_end_nonempty (cur s : string) :
  cur <> EmptyString -> Py.split_from cur s <> [].
Proof.
  revert cur. induction s as [ | c s IH]; intros cur Hcur; simpl.
  - destruct cur; [contradiction | discriminate].
  - destruct (Py.isspace c).
    + destruct cur; [contradiction | discriminate].
    + apply IH. destruct cur; discriminate.
Qed.

(** Tokens joined by line ends are the tokens [split] finds. *)
Lemma split_concat_CRLF (tokens : list string) :
  Forall (fun t => nospace t = true /\ t <> EmptyString) tokens ->
  Py.split (String.concat CRLF tokens) = tokens.
Proof.
  unfold Py.split. induction 1 as [ | t tokens [Hs Hne] Htokens IH].
  - reflexivity.
  - destruct tokens as [ | t' tokens'].
    + change (String.concat CRLF [t]) with t.
      rewrite <- (append_empty_r t) at 1.
      rewrite (split_from_run t _ _ Hs), append_empty_l.
      destruct t; [contradiction | reflexivity].
    + change (String.concat CRLF (t :: t' :: tokens'))
        with (t +:+ CRLF +:+ String.concat CRLF (t' :: tokens')).
      rewrite (split_from_run t _ _ Hs), append_empty_l.
      destruct t as [ | c t]; [contradiction | ].
      rewrite split_from_CRLF, IH. reflexivity.
Qed.

Lemma nospace_uint (d : Decimal.uint) :
  nospace (NilEmpty.string_of_uint d) = true.
Proof. induction d; simpl; try rewrite IHd; reflexivity. Qed.

Lemma nospace_decimal (n : nat) : nospace (decimal n) = true.
Proof.
  unfold decimal, NilZero.string_of_uint.
  destruct (Nat.to_uint n); try reflexivity; apply nospace_uint.
Qed.

Lemma decimal_nonempty (n : nat) : decimal n <> EmptyString.
Proof.
  unfold decimal, NilZero.string_of_uint.
  destruct (Nat.to_uint n); discriminate.
Qed.

(** The reader of digits computes what the decimal notation denotes. *)
Lemma int_digits_uint (d : Decimal.uint) (acc : nat) :
  Py.int_digits (Z.of_nat acc) (NilEmpty.string_of_uint d) =
  Some (Z.of_nat (Nat.of_uint_acc d acc)).
Proof.
  revert acc. induction d as [ | d IH | d IH | d IH | d IH | d IH | d IH
                             | d IH | d IH | d IH | d IH]; intros acc;
    [ reflexivity | .. ];
    cbn [NilEmpty.string_of_uint Nat.of_uint_acc];
    rewrite <- IH; cbn [Py.int_digits];
    match goal with
    | |- context [Py.digit ?c] =>
        let v := eval vm_compute in (Py.digit c) in
        change (Py.digit c) with v
    end;
    cbv beta iota; f_equal; rewrite Nat.tail_mul_spec; lia.
Qed.

Lemma int_uint (d : Decimal.uint) :
  Py.int (NilZero.string_of_uint d) = ok (Z.of_nat (Nat.of_uint d)).
Proof.
  destruct d as [ | d | d | d | d | d | d | d | d | d | d];
    [ reflexivity | .. ];
    unfold Py.int, NilZero.string_of_uint;
    (rewrite strip_nospace by apply nospace_uint);
    cbn [NilEmpty.string_of_uint];
    match goal with
    | |- context [Ascii.eqb ?c "-"] =>
        change (Ascii.eqb c "-") with false;
        change (Ascii.eqb c "+") with false
    end;
    cbv beta iota;
    match goal with
    | |- context [Py.int_unsigned (String ?c ?s)] =>
        change (Py.int_unsigned (String c s))
          with (Py.int_digits (Z.of_nat 0) (String c s))
    end;
    match goal with
    | |- context [String ?c (NilEmpty.string_of_uint d)] =>
        change (String c (NilEmpty.string_of_uint d))
          with (NilEmpty.string_of_uint
                  ltac:(match c with
                        | "0"%char => exact (Decimal.D0 d)
                        | "1"%char => exact (Decimal.D1 d)
                        | "2"%char => exact (Decimal.D2 d)
                        | "3"%char => exact (Decimal.D3 d)
                        | "4"%char => exact (Decimal.D4 d)
                        | "5"%char => exact (Decimal.D5 d)
                        | "6"%char => exact (Decimal.D6 d)
                        | "7"%char => exact (Decimal.D7 d)
                        | "8"%char => exact (Decimal.D8 d)
                        | "9"%char => exact (Decimal.D9 d)
                        end))
    end;
    rewrite int_digits_uint; reflexivity.
Qed.

Lemma int_decimal (n : nat) : Py.int (decimal n) = ok (Z.of_nat n).
Proof.
  unfold decimal. rewrite int_uint, DecimalNat.Unsigned.of_to. reflexivity.
Qed.

Lemma split_print_pids (pids : list nat) :
  Py.split (print_pids pids) = map decimal pids.
Proof.
  unfold print_pids. apply split_concat_CRLF.
  apply List.Forall_forall. intros t Hin.
  apply in_map_iff in Hin. destruct Hin as (n & <- & _).
  split; [apply nospace_decimal | apply decimal_nonempty].
Qed.

Lemma int_decimals (pids : list nat) :
  Forall2 (fun tok pid => Py.int tok = ok pid)
          (map decimal pids) (map Z.of_nat pids).
Proof.
  induction pids as [ | n pids IH].
  - constructor.
  - cbn [map]. constructor; [apply int_decimal | exact IH].
Qed.

(** X16.  For every list of process ids that the launcher prints in
    decimal, one per line with CR LF between the lines,
    [running_processes] yields exactly these ids, in the order
    printed. *)
Theorem running_processes_reads_printed_pids
    (P : Platform) (self : Sandboxie) (b : option string) (w : World)
    (pids : list nat) :
  check_output P w (start_argv P self (running_processes_args b)) =
    ok (print_pids pids) ->
  exists g w',
    running_processes P self b no_kwargs w = (ok g, w') /\
    Py.tuple g = ok (map Z.of_nat pids).
Proof.
  intros Hout.
  exists (Py.genexpr Py.int (Py.split (print_pids pids))).
  eexists. split; [apply running_processes_output; exact Hout | ].
  rewrite split_print_pids. apply tuple_genexpr_all_ok. apply int_decimals.
Qed.

(** X16 on a launcher that prints 4, 0 and 2914. *)
Lemma running_processes_reads_printed_pids_witness :
  exists g w',
    running_processes (platform_printing (print_pids [4; 0; 2914]%nat))
      example_sandboxie None no_kwargs example_world = (ok g, w') /\
    Py.tuple g = ok [4; 0; 2914].
Proof.
  apply (running_processes_reads_printed_pids
           (platform_printing (print_pids [4; 0; 2914]%nat))
           example_sandboxie None example_world [4; 0; 2914]%nat).
  reflexivity.
Defined.

Lemma Forall_accepted {A B} (f : A -> result B) (xs : list A) :
  Forall (fun x => exists y, f x = ok y) xs ->
  exists ys, Forall2 (fun x y => f x = ok y) xs ys.
Proof.
  induction 1 as [ | x xs [y Hy] _ [ys IH] ].
  - exists []. constructor.
  - exists (y :: ys). constructor; assumption.
Qed.

Lemma Forall2_accepted {A B} (f : A -> result B) (xs : list A)
    (ys : list B) :
  Forall2 (fun x y => f x = ok y) xs ys ->
  Forall (fun x => exists y, f x = ok y) xs.
Proof.
  induction 1 as [ | x y xs ys Hxy _ IH]; constructor; eauto.
Qed.

Lemma Forall_In_impl {A} (Q R : A -> Prop) (xs : list A) :
  (forall x, In x xs -> Q x -> R x) -> Forall Q xs -> Forall R xs.
Proof.
  intros Himp HQ. apply List.Forall_forall. intros x Hin.
  apply (Himp x Hin). rewrite List.Forall_forall in HQ. auto.
Qed.

(** Without underscores, the numerals [int] reads are the plain ones. *)
Lemma numeral_tail_all_digits (s : string) :
  no_underscore s = true -> numeral_tail true s = all_digits s.
Proof.
  induction s as [ | c s IH]; [reflexivity | ].
  cbn [no_underscore numeral_tail all_digits]. intros H.
  apply andb_true_iff in H. destruct H as [Hc Hs].
  apply negb_true_iff in Hc. rewrite Hc.
  destruct (Py.isdigit c); [exact (IH Hs) | reflexivity].
Qed.

Lemma numeral_tail_digits (s : string) :
  no_underscore s = true -> numeral_tail false s = digits s.
Proof.
  destruct s as [ | c s]; [reflexivity | ].
  cbn [no_underscore numeral_tail digits all_digits]. intros H.
  apply andb_true_iff in H. destruct H as [Hc Hs].
  apply negb_true_iff in Hc. rewrite Hc.
  destruct (Py.isdigit c); [exact (numeral_tail_all_digits s Hs) | reflexivity].
Qed.

Lemma numeric_token_plain (tok : string) :
  no_underscore tok = true -> numeric_token tok = plain_numeral tok.
Proof.
  destruct tok as [ | c s]; [reflexivity | ].
  intros H. unfold numeric_token, plain_numeral.
  destruct (Ascii.eqb c "-" || Ascii.eqb c "+").
  - apply numeral_tail_digits. cbn [no_underscore] in H.
    apply andb_true_iff in H. tauto.
  - apply numeral_tail_digits. exact H.
Qed.

(** X17.  For a launcher output whose whitespace-separated tokens have no
    underscore and at most 640 characters each (the literals that every
    interpreter reads alike, whatever its version and its limit on the
    number of digits), consuming the generator of [running_processes]
    succeeds exactly when every token is an optional sign followed by
    decimal digits, at least one; it then yields as many ids as there are
    tokens. *)
Theorem running_processes_succeeds_iff_all_numeric
    (P : Platform) (self : Sandboxie) (b : option string) (w : World)
    (output : string) :
  check_output P w (start_argv P self (running_processes_args b)) = ok output ->
  Forall (fun tok => no_underscore tok = true /\
                     (String.length tok <= 640)%nat)
         (Py.split output) ->
  exists g w',
    running_processes P self b no_kwargs w = (ok g, w') /\
    ((exists pids, Py.tuple g = ok pids) <->
     Forall (fun tok => plain_numeral tok = true) (Py.split output)) /\
    (forall pids, Py.tuple g = ok pids ->
                  length pids = length (Py.split output)).
Proof.
  intros Hout Hplain.
  exists (Py.genexpr Py.int (Py.split output)).
  eexists. split; [apply running_processes_output; exact Hout | split].
  - rewrite List.Forall_forall in Hplain. split.
    + intros [pids Hpids]. apply tuple_genexpr_ok in Hpids.
      apply Forall2_accepted in Hpids.
      apply (Forall_In_impl _ _ _ (fun tok Hin Hacc =>
               eq_trans
                 (eq_sym (numeric_token_plain tok (proj1 (Hplain tok Hin))))
                 (proj1 (int_numeric tok (proj1 (split_tokens _ _ Hin))) Hacc))
               Hpids).
    + intros Hall.
      destruct (Forall_accepted Py.int (Py.split output)) as [pids Hpids].
      * apply (Forall_In_impl _ _ _ (fun tok Hin Hnum =>
                 proj2 (int_numeric tok (proj1 (split_tokens _ _ Hin)))
                   (eq_trans (numeric_token_plain tok (proj1 (Hplain tok Hin)))
                      Hnum))
                 Hall).
      * exists pids. apply tuple_genexpr_all_ok. assumption.
  - intros pids Hpids. apply tuple_genexpr_ok in Hpids.
    symmetry. apply (Forall2_length _ _ _ Hpids).
Qed.

(** X17 on the launcher output of the unit tests. *)
Lemma running_processes_succeeds_iff_all_numeric_witness :
  exists g w',
    running_processes example_platform example_sandboxie None no_kwargs
      example_world = (ok g, w') /\
    ((exists pids, Py.tuple g = ok pids) <->
     Forall (fun tok => plain_numeral tok = true)
            (Py.split example_pidlist)) /\
    (forall pids, Py.tuple g = ok pids ->
                  length pids = length (Py.split example_pidlist)).
Proof.
  apply (running_processes_succeeds_iff_all_numeric
           example_platform example_sandboxie None example_world
           example_pidlist).
  - reflexivity.
  - apply List.Forall_forall. intros tok Hin. vm_compute in Hin.
    repeat (destruct Hin as [<- | Hin]; [split; [reflexivity | cbn; lia] | ]).
    destruct Hin.
Defined.

Lemma split_from_blank (s : string) :
  blank s = true -> Py.split_from EmptyString s = [].
Proof.
  induction s as [ | c s IH]; [reflexivity | ].
  simpl. intros H. apply andb_true_iff in H. destruct H as [-> H]. auto.
Qed.

Lemma split_from_nil_blank (s : string) :
  Py.split_from EmptyString s = [] -> blank s = true.
Proof.
  induction s as [ | c s IH]; [reflexivity | ].
  simpl. destruct (Py.isspace c); [exact IH | ].
  intros H. exfalso. revert H. apply split_from_end_nonempty. discriminate.
Qed.

(** X18.  The sequence of [running_processes] is empty, and consuming it
    raises nothing, exactly when the launcher output has no character
    other than whitespace (the empty output included). *)
Theorem running_processes_empty_iff_blank
    (P : Platform) (self : Sandboxie) (b : option string) (w : World)
    (output : string) :
  check_output P w (start_argv P self (running_processes_args b)) = ok output ->
  exists g w',
    running_processes P self b no_kwargs w = (ok g, w') /\
    (Py.tuple g = ok [] <-> blank output = true).
Proof.
  intros Hout.
  exists (Py.genexpr Py.int (Py.split output)).
  eexists. split; [apply running_processes_output; exact Hout | split].
  - intros Hnil. apply tuple_genexpr_ok in Hnil.
    apply split_from_nil_blank. inversion Hnil as [Heq | ].
    symmetry. exact Heq.
  - intros Hblank. unfold Py.split. rewrite (split_from_blank _ Hblank).
    reflexivity.
Qed.

(** X18 on a launcher that prints an empty line. *)
Lemma running_processes_empty_iff_blank_witness :
  exists g w',
    running_processes (platform_printing CRLF) example_sandboxie None
      no_kwargs example_world = (ok g, w') /\
    (Py.tuple g = ok [] <-> blank CRLF = true).
Proof.
  apply (running_processes_empty_iff_blank
           (platform_printing CRLF) example_sandboxie None example_world CRLF).
  reflexivity.
Defined.

(** ** Construction *)

(** The search reads the world and leaves it as it is; what it finds
    exists and is a [Sandboxie.ini] of one of the directories. *)
Lemma find_config_in_found (P : Platform) (dirs : list string) (w : World) :
  snd (find_config_in P dirs w) = w /\
  match fst (find_config_in P dirs w) with
  | inr (Some path) =>
      is_Some (files w !! path) /\
      exists dir, In dir dirs /\ path = os_path_join P dir "Sandboxie.ini"
  | inr None =>
      forall dir, In dir dirs ->
                  files w !! os_path_join P dir "Sandboxie.ini" = None
  | inl _ => False
  end.
Proof.
  induction dirs as [ | dir dirs [IHw IH] ].
  - split; [reflexivity | ]. simpl. intros dir [].
  - cbn [find_config_in]. unfold bind, os_path_exists, ok at 1.
    destruct (decide (is_Some (files w !! os_path_join P dir "Sandboxie.ini")))
      as [Hyes | Hno].
    + rewrite (bool_decide_eq_true_2 _ Hyes). cbn.
      split; [reflexivity | ]. split; [assumption | ].
      exists dir. split; [left; reflexivity | reflexivity].
    + rewrite (bool_decide_eq_false_2 _ Hno). change (ok false) with (@inr exn bool false).
      cbv beta iota. split; [assumption | ].
      destruct (fst (find_config_in P dirs w)) as [e | [path | ] ].
      * assumption.
      * destruct IH as [Hex (dir' & Hin & Hpath)].
        split; [assumption | ]. exists dir'. split; [right; assumption | assumption].
      * intros dir' [<- | Hin]; [ | apply IH; assumption].
        apply eq_None_not_Some. assumption.
Qed.

(** X19.  A [Sandboxie] object that [__init__] returns has a config path
    at which a file exists, namely [Sandboxie.ini] in the Windows
    directory or else in the installation directory; its installation
    directory is the one given, else the value of
    [SANDBOXIE_INSTALL_DIR], else [C:\Program Files\Sandboxie]; its
    default sandbox is the one given, else [DefaultBox].  Constructing
    it changes nothing in the world. *)
Theorem init_finds_existing_config
    (P : Platform) (environ : gmap string string)
    (given_box given_dir : option string) (w w' : World)
    (self : Sandboxie) :
  __init__ P environ given_box given_dir w = (ok self, w') ->
  w' = w /\
  is_Some (files w !! config_path self) /\
  (exists windir,
      environ !! "WinDir" = Some windir /\
      (config_path self = os_path_join P windir "Sandboxie.ini" \/
       config_path self =
         os_path_join P (install_dir self) "Sandboxie.ini")) /\
  install_dir self =
    match given_dir with
    | Some dir => dir
    | None =>
        default "C:\Program Files\Sandboxie"
                (environ !! "SANDBOXIE_INSTALL_DIR")
    end /\
  defaultbox self = default "DefaultBox" given_box.
Proof.
  unfold __init__, _find_config_path, bind.
  set (dir := match given_dir with Some d => d | None => _ end).
  destruct (environ !! "WinDir") as [windir | ]; [ | discriminate].
  destruct (find_config_in_found P [windir; dir] w) as [Hw Hfound].
  destruct (find_config_in P [windir; dir] w) as [r w0]. cbn in Hw, Hfound.
  subst w0. destruct r as [e | [path | ] ]; [contradiction | | discriminate].
  intros H. injection H as <- <-. cbn.
  destruct Hfound as [Hex (d & Hin & ->)].
  split; [reflexivity | split; [assumption | split] ].
  - exists windir. split; [reflexivity | ].
    destruct Hin as [<- | [<- | [] ] ]; [left | right]; reflexivity.
  - split; reflexivity.
Qed.

(** X19 on the example world, whose config is in the Windows
    directory. *)
Lemma init_finds_existing_config_witness :
  is_Some (files example_world !! config_path example_sandboxie) /\
  install_dir example_sandboxie = "C:\Program Files\Sandboxie" /\
  defaultbox example_sandboxie = "DefaultBox".
Proof.
  destruct (init_finds_existing_config
              example_platform {["WinDir" := "C:\WINDOWS"]} None None
              example_world example_world example_sandboxie)
    as (_ & Hex & _ & Hdir & Hbox).
  - vm_compute. reflexivity.
  - split; [exact Hex | split; [exact Hdir | exact Hbox] ].
Defined.

(** X20.  With [WinDir] set, [__init__] takes [Sandboxie.ini] from the
    Windows directory whenever it exists there, also when the
    installation directory has one too; it takes the one of the
    installation directory only when the Windows directory has none. *)
Theorem init_searches_windows_directory_first
    (P : Platform) (environ : gmap string string)
    (given_box given_dir : option string) (w : World) (windir : string) :
  environ !! "WinDir" = Some windir ->
  let dir :=
    match given_dir with
    | Some dir => dir
    | None =>
        default "C:\Program Files\Sandboxie"
                (environ !! "SANDBOXIE_INSTALL_DIR")
    end in
  let self path :=
    {| install_dir := dir; defaultbox := default "DefaultBox" given_box;
       config_path := path |} in
  (is_Some (files w !! os_path_join P windir "Sandboxie.ini") ->
   __init__ P environ given_box given_dir w =
     (ok (self (os_path_join P windir "Sandboxie.ini")), w)) /\
  (files w !! os_path_join P windir "Sandboxie.ini" = None ->
   is_Some (files w !! os_path_join P dir "Sandboxie.ini") ->
   __init__ P environ given_box given_dir w =
     (ok (self (os_path_join P dir "Sandboxie.ini")), w)).
Proof.
  intros Hwin dir self. unfold __init__, _find_config_path. rewrite Hwin.
  fold dir. cbn [find_config_in]. unfold bind, os_path_exists. split.
  - intros Hyes. rewrite (bool_decide_eq_true_2 _ Hyes). reflexivity.
  - intros Hno Hyes.
    rewrite (bool_decide_eq_false_2 (is_Some (files w !! _)))
      by (rewrite Hno; apply is_Some_None).
    cbn. rewrite (bool_decide_eq_true_2 _ Hyes). reflexivity.
Qed.

(** X20 in a world where both directories have a [Sandboxie.ini]. *)
Lemma init_searches_windows_directory_first_witness :
  fst (__init__ example_platform {["WinDir" := "C:\WINDOWS"]} None None
         {| files :=
              <["C:\Program Files\Sandboxie\Sandboxie.ini" := ""]>
                (files example_world);
            unwritable := ∅;
            invocations := [] |}) = ok example_sandboxie.
Proof.
  destruct (init_searches_windows_directory_first
              example_platform {["WinDir" := "C:\WINDOWS"]} None None
              {| files :=
                   <["C:\Program Files\Sandboxie\Sandboxie.ini" := ""]>
                     (files example_world);
                 unwritable := ∅;
                 invocations := [] |} "C:\WINDOWS") as [H _].
  - vm_compute. reflexivity.
  - rewrite H.
    + reflexivity.
    + vm_compute. eexists. reflexivity.
Defined.

(** X21.  [__init__] fails fast and changes nothing: without [WinDir] in
    the environment it raises [KeyError], whatever the installation
    directory holds; with [WinDir] set and no [Sandboxie.ini] in either
    directory it raises [SandboxieError]. *)
Theorem init_fails_without_config
    (P : Platform) (environ : gmap string string)
    (given_box given_dir : option string) (w : World) :
  let dir :=
    match given_dir with
    | Some dir => dir
    | None =>
        default "C:\Program Files\Sandboxie"
                (environ !! "SANDBOXIE_INSTALL_DIR")
    end in
  (environ !! "WinDir" = None ->
   __init__ P environ given_box given_dir w = (raise (Raised "KeyError"), w)) /\
  (forall windir,
      environ !! "WinDir" = Some windir ->
      files w !! os_path_join P windir "Sandboxie.ini" = None ->
      files w !! os_path_join P dir "Sandboxie.ini" = None ->
      __init__ P environ given_box given_dir w =
        (raise (Raised "SandboxieError"), w)).
Proof.
  intros dir. unfold __init__, _find_config_path. fold dir. split.
  - intros ->. reflexivity.
  - intros windir -> Hwin Hdir.
    cbn [find_config_in]. unfold bind, os_path_exists.
    rewrite !(bool_decide_eq_false_2 (is_Some (files w !! _)))
      by (rewrite ?Hwin, ?Hdir; apply is_Some_None).
    cbn. rewrite !(bool_decide_eq_false_2 (is_Some (files w !! _)))
      by (rewrite ?Hwin, ?Hdir; apply is_Some_None).
    reflexivity.
Qed.

(** X21 as in [test_init_raises_when_sandboxie_config_not_found], and
    without [WinDir]. *)
Lemma init_fails_without_config_witness :
  __init__ example_platform {["WinDir" := "does_not_exist"]} None None
    {| files := ∅; unwritable := ∅; invocations := [] |} =
    (raise (Raised "SandboxieError"), {| files := ∅; unwritable := ∅; invocations := [] |}) /\
  __init__ example_platform ∅ None (Some "C:\WINDOWS") example_world =
    (raise (Raised "KeyError"), example_world).
Proof.
  split.
  - apply (proj2 (init_fails_without_config
                    example_platform {["WinDir" := "does_not_exist"]}
                    None None {| files := ∅; unwritable := ∅; invocations := [] |})
             "does_not_exist"); vm_compute; reflexivity.
  - apply (proj1 (init_fails_without_config
                    example_platform ∅ None (Some "C:\WINDOWS")
                    example_world)).
    vm_compute. reflexivity.
Defined.
